(** * markdown-converter: the file-to-Markdown conversion engine

    A shallow embedding of [src/utils/fileConverter.ts] (the batch entry point
    [convertFilesToMarkdown], the per-format converters, the DOCX reader, the
    cleanup normalizer and the replacement functions of two Turndown rules)
    and of the selection list of [FileUpload.tsx], together with the
    properties stated about them.

    Conventions of the embedding.
    - A JavaScript string is the list of its UTF-16 code units ([char := N]).
    - Every regular expression of the source is embedded as a hand-written
      matcher, with the regular expression quoted in its comment.  Global
      [String.prototype.replace] is the combinator [replaceAll].
    - Built-ins of the JavaScript engine and of third-party libraries whose
      results the converters only pass along (number parsing and printing,
      [JSON.parse], Turndown, FileReader, JSZip, DOMParser), and
      [String.prototype.toUpperCase] with its Unicode case tables, are
      parameters of the section that uses them.
    - A function that can throw returns in [Exc]; awaiting a promise is
      running the computation.
    - Strings have no bound on their length. *)

From Stdlib Require Import String Ascii DecimalString Floats.
From Stdlib Require Import NArith ZArith Bool Arith Lia List.
From Stdlib Require Import Sorted Permutation.
Import ListNotations.

Set Implicit Arguments.
Open Scope list_scope.

(* ================================================================== *)
(** ** JavaScript strings *)
(* ================================================================== *)

Module JS.

Definition char := N.
Bind Scope N_scope with char.
Definition jsstring := list char.

(** Literal text of the source, as code units. *)
Definition js (s : string) : jsstring :=
  map (fun a => N_of_ascii a) (list_ascii_of_string s).

Definition cNL : char := 10%N.      (* \n *)
Definition cCR : char := 13%N.      (* \r *)
Definition cTAB : char := 9%N.
Definition cSP : char := 32%N.
Definition cDQ : char := 34%N.      (* double quote *)
Definition cSQ : char := 39%N.      (* single quote *)
Definition cHASH : char := 35%N.
Definition cCOMMA : char := 44%N.
Definition cDOT : char := 46%N.
Definition cPIPE : char := 124%N.
Definition cBSL : char := 92%N.     (* backslash *)
Definition cBULLET : char := 8226%N. (* U+2022 *)

Definition NL : jsstring := [cNL].

Definition inRange (lo hi c : char) : bool := (N.leb lo c) && (N.leb c hi).

Definition isUpper (c : char) : bool := inRange 65 90 c.      (* [A-Z] *)
Definition isLower (c : char) : bool := inRange 97 122 c.     (* [a-z] *)
Definition isAlpha (c : char) : bool := isUpper c || isLower c.
Definition isDigit (c : char) : bool := inRange 48 57 c.      (* \d *)
Definition isWordChar (c : char) : bool :=                    (* \w *)
  isAlpha c || isDigit c || N.eqb c 95.

(** LineTerminator of ECMAScript: what [.] refuses and what [$] with the
    [m] flag stops at. *)
Definition isLineTerminator (c : char) : bool :=
  N.eqb c 10 || N.eqb c 13 || N.eqb c 8232 || N.eqb c 8233.

(** [\s] of a regular expression, which is also the set [trim] strips:
    WhiteSpace and LineTerminator. *)
Definition isSpace (c : char) : bool :=
  inRange 9 13 c || N.eqb c 32 || N.eqb c 160 || N.eqb c 5760
  || inRange 8192 8202 c || N.eqb c 8232 || N.eqb c 8233 || N.eqb c 8239
  || N.eqb c 8287 || N.eqb c 12288 || N.eqb c 65279.

Fixpoint str_eqb (a b : jsstring) : bool :=
  match a, b with
  | [], [] => true
  | x :: a', y :: b' => N.eqb x y && str_eqb a' b'
  | _, _ => false
  end.

Fixpoint dropWhile (p : char -> bool) (s : jsstring) : jsstring :=
  match s with
  | [] => []
  | c :: rest => if p c then dropWhile p rest else s
  end.

Fixpoint takeWhile (p : char -> bool) (s : jsstring) : jsstring :=
  match s with
  | [] => []
  | c :: rest => if p c then c :: takeWhile p rest else []
  end.

Definition trimStart (s : jsstring) : jsstring := dropWhile isSpace s.
Definition trimEnd (s : jsstring) : jsstring := rev (dropWhile isSpace (rev s)).
(** [String.prototype.trim] *)
Definition trim (s : jsstring) : jsstring := trimEnd (trimStart s).

(** [s.startsWith(p)] *)
Fixpoint startsWith (p s : jsstring) : bool :=
  match p, s with
  | [], _ => true
  | x :: p', y :: s' => N.eqb x y && startsWith p' s'
  | _ :: _, [] => false
  end.

(** [s.endsWith(p)] *)
Definition endsWith (p s : jsstring) : bool := startsWith (rev p) (rev s).

(** [s.includes(p)] *)
Fixpoint includes (p s : jsstring) : bool :=
  startsWith p s ||
  match s with
  | [] => false
  | _ :: rest => includes p rest
  end.

(** [s.split(sep)] for a one-character separator; the empty string splits
    into one empty piece. *)
Fixpoint splitOn (sep : char) (s : jsstring) : list jsstring :=
  match s with
  | [] => [[]]
  | c :: rest =>
      if N.eqb c sep then [] :: splitOn sep rest
      else match splitOn sep rest with
           | l :: ls => (c :: l) :: ls
           | [] => [[c]]
           end
  end.

(** [parts.join(sep)] *)
Fixpoint join (sep : jsstring) (parts : list jsstring) : jsstring :=
  match parts with
  | [] => []
  | [p] => p
  | p :: rest => p ++ sep ++ join sep rest
  end.

(** [c.repeat(n)] for a one-character string *)
Definition repeatChar (c : char) (n : nat) : jsstring := repeat c n.

(** The two cases of an ASCII letter. *)
Definition upperChar (c : char) : char := if isLower c then (c - 32)%N else c.
Definition lowerChar (c : char) : char := if isUpper c then (c + 32)%N else c.

(** [s.toLowerCase()] as far as the tests made on its result can tell.  The
    result is only ever searched for an ASCII text ([endsWith('.docx')],
    [includes('wordprocessingml')], [includes('csv')] and the like).  Outside
    ASCII only U+212A has an ASCII letter as its lower case, a [k], which
    none of those texts has, and only U+0130 has one in its lower case, an [i]
    followed by U+0307, which none of those texts has after an [i].  So
    mapping the ASCII letters gives every such test its answer.
    [s.toUpperCase()], whose result is compared with the whole of [s], is not
    of that kind: it is a parameter where it is used. *)
Definition toLowerCase (s : jsstring) : jsstring := map lowerChar s.

(** Prefix test of a regular expression with the [i] flag: without the [u]
    flag the canonicalisation never identifies an ASCII letter with a
    non-ASCII one, so only the ASCII letters fold. *)
Fixpoint startsWithCI (p s : jsstring) : bool :=
  match p, s with
  | [], _ => true
  | x :: p', y :: s' => N.eqb (upperChar x) (upperChar y) && startsWithCI p' s'
  | _ :: _, [] => false
  end.

(** [String(n)] for a non-negative integer such as [array.length]. *)
Definition natToString (n : nat) : jsstring :=
  js (NilEmpty.string_of_uint (Nat.to_uint n)).

(** *** [String.prototype.replace]

    A matcher is given the code unit before the current position (if any)
    and the rest of the string from the current position; it answers with
    the number of code units the match consumes and the replacement text. *)
Definition matcher := option char -> jsstring -> option (nat * jsstring).

(** Replace with a [g] regular expression: scan from the left, at a match
    emit the replacement and resume after the consumed text ([skip] counts
    the consumed code units still to pass over); an empty match is followed
    by one copied code unit, as [lastIndex] is then advanced by one. *)
Fixpoint replaceAll_from (m : matcher) (skip : nat) (prev : option char)
         (s : jsstring) : jsstring :=
  match s with
  | [] =>
      match skip with
      | O => match m prev [] with Some (_, r) => r | None => [] end
      | S _ => []
      end
  | c :: rest =>
      match skip with
      | S k => replaceAll_from m k (Some c) rest
      | O =>
          match m prev s with
          | Some (S k, r) => r ++ replaceAll_from m k (Some c) rest
          | Some (O, r) => r ++ c :: replaceAll_from m 0 (Some c) rest
          | None => c :: replaceAll_from m 0 (Some c) rest
          end
      end
  end.

Definition replaceAll (m : matcher) (s : jsstring) : jsstring :=
  replaceAll_from m 0 None s.

(** Replace with a regular expression anchored by [^] and without [g]: one
    attempt, at the start of the string. *)
Definition replaceAtStart (m : jsstring -> option (nat * jsstring))
           (s : jsstring) : jsstring :=
  match m s with
  | Some (n, r) => r ++ skipn n s
  | None => s
  end.

(** [!s] for a string: it is empty. *)
Definition isEmpty (s : jsstring) : bool :=
  match s with [] => true | _ => false end.

Definition isSome {A} (o : option A) : bool :=
  match o with Some _ => true | None => false end.

(** Length of the longest prefix of [s] made of code units satisfying [p]. *)
Definition runLength (p : char -> bool) (s : jsstring) : nat :=
  length (takeWhile p s).

End JS.
Import JS.

(* ================================================================== *)
(** ** The cleanup normalizer *)
(* ================================================================== *)

Module Cleanup.

(** [/\n{4,}/g] replaced by three newlines: a maximal run of four or more
    newlines. *)
Definition m_newlines4 : matcher := fun _ s =>
  let n := runLength (N.eqb cNL) s in
  if 4 <=? n then Some (n, [cNL; cNL; cNL]) else None.

(** [/\n(#{1,6}\s)/g] replaced by [\n\n$1].  After the newline come one to
    six [#] and a [\s]; as [\s] is not [#], the whole run of [#] is taken. *)
Definition m_headerBefore : matcher := fun _ s =>
  match s with
  | c :: rest =>
      if N.eqb c cNL then
        let h := runLength (N.eqb cHASH) rest in
        if (1 <=? h) && (h <=? 6) then
          match skipn h rest with
          | w :: _ =>
              if isSpace w
              then Some (S (S h), cNL :: cNL :: firstn (S h) rest)
              else None
          | [] => None
          end
        else None
      else None
  | [] => None
  end.

(** [/(#{1,6}\s[^\n]+)\n(?!\n)/g] replaced by [$1\n\n]: one to six [#], a
    [\s], a non-empty maximal run of non-newlines, a newline, and then no
    second newline. *)
Definition m_headerAfter : matcher := fun _ s =>
  let h := runLength (N.eqb cHASH) s in
  if (1 <=? h) && (h <=? 6) then
    match skipn h s with
    | w :: body =>
        if isSpace w then
          let r := runLength (fun c => negb (N.eqb c cNL)) body in
          if 1 <=? r then
            match skipn r body with
            | n1 :: after =>
                (* n1 is a newline: the run of non-newlines is maximal *)
                match after with
                | n2 :: _ =>
                    if N.eqb n2 cNL then None
                    else Some (h + 1 + r + 1, firstn (h + 1 + r) s ++ [cNL; cNL])
                | [] => Some (h + 1 + r + 1, firstn (h + 1 + r) s ++ [cNL; cNL])
                end
            | [] => None
            end
          else None
        else None
    | [] => None
    end
  else None.

Definition isBlankChar (c : char) : bool := N.eqb c cSP || N.eqb c cTAB.

(** [/[ \t]+$/gm] replaced by the empty string: a maximal run of spaces and
    tabs that reaches the end of the string or a line terminator. *)
Definition m_trailingWs : matcher := fun _ s =>
  let r := runLength isBlankChar s in
  if 1 <=? r then
    match skipn r s with
    | [] => Some (r, [])
    | c :: _ => if isLineTerminator c then Some (r, []) else None
    end
  else None.

Definition isSentencePunct (c : char) : bool :=
  N.eqb c 46 || N.eqb c 33 || N.eqb c 63.          (* [.!?] *)
Definition isClausePunct (c : char) : bool :=
  N.eqb c 44 || N.eqb c 59 || N.eqb c 58.          (* [,;:] *)

(** [/([.!?])([A-Z])/g] replaced by [$1 $2] *)
Definition m_sentenceSpace : matcher := fun _ s =>
  match s with
  | p :: l :: _ =>
      if isSentencePunct p && isUpper l then Some (2, [p; cSP; l]) else None
  | _ => None
  end.

(** [/([,;:])([a-zA-Z])/g] replaced by [$1 $2] *)
Definition m_clauseSpace : matcher := fun _ s =>
  match s with
  | p :: l :: _ =>
      if isClausePunct p && isAlpha l then Some (2, [p; cSP; l]) else None
  | _ => None
  end.

Definition cleanupMarkdownContent (content : jsstring) : jsstring :=
  let cleaned := content in
  let cleaned := replaceAll m_newlines4 cleaned in
  let cleaned := replaceAll m_headerBefore cleaned in
  let cleaned := replaceAll m_headerAfter cleaned in
  let cleaned := replaceAll m_trailingWs cleaned in
  let cleaned := replaceAll m_sentenceSpace cleaned in
  let cleaned := replaceAll m_clauseSpace cleaned in
  let cleaned := trim cleaned in
  if negb (isEmpty cleaned) && negb (endsWith NL cleaned)
  then cleaned ++ NL
  else cleaned.

End Cleanup.
Import Cleanup.

(* ================================================================== *)
(** ** The delimited-text (CSV) line parser *)
(* ================================================================== *)

Module Csv.

(** The loop of [parseCSVLine]: [line] is the text from index [i] on; the
    step that reads [line[i + 1]] and skips it continues two code units
    further. *)
Fixpoint parseCSVLine_loop (line : jsstring) (current : jsstring)
         (inQuotes : bool) (result : list jsstring) : list jsstring :=
  match line with
  | [] => result ++ [trim current]
  | c :: rest =>
      if N.eqb c cDQ then
        match rest with
        | c' :: rest' =>
            if inQuotes && N.eqb c' cDQ
            then parseCSVLine_loop rest' (current ++ [cDQ]) inQuotes result
            else parseCSVLine_loop rest current (negb inQuotes) result
        | [] => parseCSVLine_loop rest current (negb inQuotes) result
        end
      else if N.eqb c cCOMMA && negb inQuotes then
        parseCSVLine_loop rest [] inQuotes (result ++ [trim current])
      else
        parseCSVLine_loop rest (current ++ [c]) inQuotes result
  end.

Definition parseCSVLine (line : jsstring) : list jsstring :=
  parseCSVLine_loop line [] false [].

(** *** Numbers

    A Number is IEEE binary64 ([float]).  The text-to-number and
    number-to-text conversions of the engine are parameters; what is fixed
    here is which strings [parseFloat] accepts, since that is syntax alone:
    after leading white space, the longest prefix that is a
    StrDecimalLiteral, and NaN when there is none.  [parseFloat] returns
    [None] for NaN and the engine's value of the literal otherwise. *)

Definition isSign (c : char) : bool := N.eqb c 43 || N.eqb c 45.   (* + - *)
Definition isExpMark (c : char) : bool := N.eqb c 101 || N.eqb c 69. (* e E *)

(** ExponentPart, when one follows: [eE], an optional sign, digits. *)
Definition exponentPart (s : jsstring) : jsstring :=
  match s with
  | e :: rest =>
      if isExpMark e then
        match rest with
        | sg :: rest' =>
            if isSign sg then
              match takeWhile isDigit rest' with
              | [] => []
              | ds => e :: sg :: ds
              end
            else
              match takeWhile isDigit rest with
              | [] => []
              | ds => e :: ds
              end
        | [] => []
        end
      else []
  | [] => []
  end.

(** Longest prefix that is a StrUnsignedDecimalLiteral. *)
Definition unsignedDecimalPrefix (s : jsstring) : option jsstring :=
  if startsWith (js "Infinity") s then Some (js "Infinity")
  else
    let d1 := takeWhile isDigit s in
    let after1 := skipn (length d1) s in
    match d1 with
    | _ :: _ =>
        let mant :=
          match after1 with
          | c :: rest => if N.eqb c cDOT then d1 ++ cDOT :: takeWhile isDigit rest else d1
          | [] => d1
          end in
        Some (mant ++ exponentPart (skipn (length mant) s))
    | [] =>
        match after1 with
        | c :: rest =>
            if N.eqb c cDOT then
              match takeWhile isDigit rest with
              | [] => None
              | d2 => let mant := cDOT :: d2 in
                      Some (mant ++ exponentPart (skipn (length mant) s))
              end
            else None
        | [] => None
        end
    end.

(** Longest prefix that is a StrDecimalLiteral. *)
Definition strDecimalPrefix (s : jsstring) : option jsstring :=
  match s with
  | c :: rest =>
      if isSign c then option_map (cons c) (unsignedDecimalPrefix rest)
      else unsignedDecimalPrefix s
  | [] => None
  end.

Definition natToFloat (n : nat) : float :=
  PrimFloat.of_uint63 (Uint63.of_Z (Z.of_nat n)).

Definition isNegZero (x : float) : bool :=
  match PrimFloat.classify x with NZero => true | _ => false end.

(** [Math.min] and [Math.max] of two numbers neither of which is NaN; the
    negative zero is below the positive one. *)
Definition min2 (a b : float) : float :=
  if PrimFloat.ltb a b then a
  else if PrimFloat.ltb b a then b
  else if isNegZero a then a else b.
Definition max2 (a b : float) : float :=
  if PrimFloat.ltb b a then a
  else if PrimFloat.ltb a b then b
  else if isNegZero a then b else a.

(** [Math.min(...values)], [Math.max(...values)] *)
Definition mathMin (values : list float) : float :=
  fold_left min2 values PrimFloat.infinity.
Definition mathMax (values : list float) : float :=
  fold_left max2 values PrimFloat.neg_infinity.

(** [/\|/g] replaced by a backslash and the pipe. *)
Definition m_pipe : matcher := fun _ s =>
  match s with
  | c :: _ => if N.eqb c cPIPE then Some (1, [cBSL; cPIPE]) else None
  | [] => None
  end.
Definition escapePipes (s : jsstring) : jsstring := replaceAll m_pipe s.

Section Converter.

(** The engine's value of a StrDecimalLiteral (never NaN), [String(x)] and
    [x.toFixed(2)] for a Number. *)
Variable numericValue : jsstring -> float.
Variable numberToString : float -> jsstring.
Variable toFixed2 : float -> jsstring.

Definition parseFloat (s : jsstring) : option float :=
  option_map numericValue (strDecimalPrefix (trimStart s)).

(** [parseFloat(row[colIndex])]: an index out of range reads [undefined],
    which parses to NaN. *)
Definition parseFloatAt (row : list jsstring) (colIndex : nat) : option float :=
  match nth_error row colIndex with
  | Some cell => parseFloat cell
  | None => None
  end.

(** The inner loop of [detectNumericColumns] over the sampled rows
    [rows[1] .. rows[min(rows.length, 11) - 1]]: the pair
    [(numericCount, totalCount)]. *)
Definition sampleStep (colIndex : nat) (acc : nat * nat) (row : list jsstring)
  : nat * nat :=
  let '(numericCount, totalCount) := acc in
  match nth_error row colIndex with
  | Some cell =>
      if negb (isEmpty cell) && negb (isEmpty (trim cell)) then
        (if isSome (parseFloat (trim cell)) then S numericCount else numericCount,
         S totalCount)
      else acc
  | None => acc
  end.

Definition sampleRows (rows : list (list jsstring)) : list (list jsstring) :=
  firstn 10 (tl rows).

Definition sampleCounts (rows : list (list jsstring)) (colIndex : nat) : nat * nat :=
  fold_left (sampleStep colIndex) (sampleRows rows) (0, 0).

(** The literal [0.7]: the binary64 number nearest to seven tenths. *)
Definition threshold : float := 0x1.6666666666666p-1%float.

(** [totalCount > 0 && (numericCount / totalCount) >= 0.7] *)
Definition isNumericColumn (counts : nat * nat) : bool :=
  let '(numericCount, totalCount) := counts in
  (0 <? totalCount) &&
  PrimFloat.leb threshold (PrimFloat.div (natToFloat numericCount) (natToFloat totalCount)).

Definition detectNumericColumns (rows : list (list jsstring)) : list nat :=
  if length rows <? 2 then []
  else
    let header := hd [] rows in
    filter (fun colIndex => isNumericColumn (sampleCounts rows colIndex))
           (seq 0 (length header)).

(** [cell.trim() || 'Column'] *)
Definition cleanHeaderCell (cell : jsstring) : jsstring :=
  if isEmpty (trim cell) then js "Column" else trim cell.

(** One table line: [ '| ' + cells.join(' | ') + ' |\n' ] *)
Definition tableLine (cells : list jsstring) : jsstring :=
  js "| " ++ join (js " | ") cells ++ js " |" ++ NL.

(** [while (paddedRow.length < n) paddedRow.push('')] *)
Definition padRow (n : nat) (row : list jsstring) : list jsstring :=
  row ++ repeat [] (n - length row).

(** The body of the data-row loop for one row. *)
Definition dataRowLine (width : nat) (row : list jsstring) : jsstring :=
  match row with
  | [] => []
  | _ :: _ =>
      let paddedRow := padRow width row in
      let cleanRow := map (fun cell => escapePipes (trim cell)) (firstn width paddedRow) in
      tableLine cleanRow
  end.

(** The summary block of one numeric column. *)
Definition columnSummary (rows : list (list jsstring)) (cleanHeader : list jsstring)
           (colIndex : nat) : jsstring :=
  let colName :=
    match nth_error cleanHeader colIndex with
    | Some ((_ :: _) as h) => h
    | _ => js "Column " ++ natToString (colIndex + 1)
    end in
  let values :=
    flat_map (fun row => match parseFloatAt row colIndex with
                         | Some v => [v] | None => [] end) (tl rows) in
  match values with
  | [] => []
  | _ :: _ =>
      let sum := fold_left PrimFloat.add values PrimFloat.zero in
      let avg := PrimFloat.div sum (natToFloat (length values)) in
      let min := mathMin values in
      let max := mathMax values in
      js "**" ++ colName ++ js ":**" ++ NL
      ++ js "- Count: " ++ natToString (length values) ++ NL
      ++ js "- Average: " ++ toFixed2 avg ++ NL
      ++ js "- Min: " ++ numberToString min ++ NL
      ++ js "- Max: " ++ numberToString max ++ NL ++ NL
  end.

Definition convertCsvToMarkdown (csvContent : jsstring) : jsstring :=
  let lines := splitOn cNL (trim csvContent) in
  if length lines =? 0 then js "# Empty CSV" ++ NL
  else
    let markdown := js "# CSV Data" ++ NL ++ NL in
    let rows := map parseCSVLine lines in
    match rows with
    | [] => markdown
    | header :: dataRows =>
        let markdown := markdown ++ js "**Rows:** " ++ natToString (length rows) ++ NL in
        let markdown := markdown ++ js "**Columns:** " ++ natToString (length header) ++ NL ++ NL in
        match header with
        | [] => markdown
        | _ :: _ =>
            let cleanHeader := map cleanHeaderCell header in
            let markdown := markdown ++ tableLine cleanHeader in
            let markdown := markdown ++ tableLine (map (fun _ => js "---") cleanHeader) in
            let markdown :=
              fold_left (fun md row => md ++ dataRowLine (length cleanHeader) row)
                        dataRows markdown in
            let numericColumns := detectNumericColumns rows in
            match numericColumns with
            | [] => markdown
            | _ :: _ =>
                let markdown := markdown ++ NL ++ js "## Data Summary" ++ NL ++ NL in
                fold_left (fun md colIndex => md ++ columnSummary rows cleanHeader colIndex)
                          numericColumns markdown
            end
        end
    end.

End Converter.

End Csv.
Import Csv.

(* ================================================================== *)
(** ** Plain-text structural inference *)
(* ================================================================== *)

Module PlainText.

(** [/^[A-Z\s\d\-\.:]+$/] *)
Definition isCapsHeaderChar (c : char) : bool :=
  isUpper c || isSpace c || isDigit c || N.eqb c 45 || N.eqb c 46 || N.eqb c 58.
Definition re_capsLine (line : jsstring) : bool :=
  negb (isEmpty line) && forallb isCapsHeaderChar line.

(** [/^=+$/] and [/^-+$/] *)
Definition re_allOf (c : char) (line : jsstring) : bool :=
  negb (isEmpty line) && forallb (N.eqb c) line.

(** [prefix] then [\s+]: the class run [p+] followed by a dot and white
    space, the shape of [/^\d+\.\s+/] and [/^[ivxlcdm]+\.\s+/i]; the answer
    is the text after the white space. *)
Definition afterRunDotSpace (p : char -> bool) (line : jsstring) : option jsstring :=
  let d := runLength p line in
  if 1 <=? d then
    match skipn d line with
    | dot :: w :: rest =>
        if N.eqb dot cDOT && isSpace w then Some (dropWhile isSpace rest) else None
    | _ => None
    end
  else None.

(** [/^\d+\.\s+[A-Z]/] *)
Definition re_numberedCaps (line : jsstring) : bool :=
  match afterRunDotSpace isDigit line with
  | Some (c :: _) => isUpper c
  | _ => false
  end.

Definition headerKeywords : list jsstring :=
  [js "Chapter"; js "Section"; js "Part"; js "Article"; js "Introduction";
   js "Conclusion"; js "Summary"; js "Overview"; js "Background"].

(** [/^(k1|k2|...)\s+/i] *)
Definition re_keywordSpaceCI (keywords : list jsstring) (line : jsstring) : bool :=
  existsb (fun k => startsWithCI k line &&
                    match skipn (length k) line with
                    | w :: _ => isSpace w
                    | [] => false
                    end) keywords.

Section Engine.

(** [s.toUpperCase()], with the case tables of Unicode behind it. *)
Variable toUpperCase : jsstring -> jsstring.

Definition isHeader (line nextLine : jsstring) : bool :=
  if (3 <? length line) && str_eqb line (toUpperCase line) && re_capsLine line
  then true
  else if negb (isEmpty nextLine) &&
          (re_allOf 61 nextLine || re_allOf 45 nextLine)
  then true
  else if re_numberedCaps line && str_eqb line (toUpperCase line)
  then true
  else if re_keywordSpaceCI headerKeywords line
  then true
  else false.

Definition getHeaderLevel (line : jsstring) (index : nat) (lines : list jsstring) : nat :=
  if (index =? 0) || forallb (fun l => isEmpty (trim l)) (firstn index lines)
  then 1
  else if (length line <? 30) && str_eqb line (toUpperCase line)
  then 2
  else if re_keywordSpaceCI [js "Chapter"; js "Part"] line
  then 1
  else if re_keywordSpaceCI [js "Section"] line
  then 2
  else 3.

Definition isBulletChar (c : char) : bool :=
  N.eqb c 45 || N.eqb c 42 || N.eqb c cBULLET.           (* [-*•] *)
Definition isRomanChar (c : char) : bool :=                (* [ivxlcdm] with /i *)
  existsb (N.eqb (upperChar c)) [73; 86; 88; 76; 67; 68; 77]%N.

(** [/^[cls]\s+/] for a one-character class *)
Definition re_charSpace (p : char -> bool) (line : jsstring) : bool :=
  match line with
  | c :: w :: _ => p c && isSpace w
  | _ => false
  end.

(** [/^[a-zA-Z]\.\s+/] *)
Definition re_letterDotSpace (line : jsstring) : bool :=
  match line with
  | c :: dot :: w :: _ => isAlpha c && N.eqb dot cDOT && isSpace w
  | _ => false
  end.

Definition isList (line : jsstring) : bool :=
  if re_charSpace isBulletChar line then true
  else if isSome (afterRunDotSpace isDigit line) then true
  else if re_letterDotSpace line then true
  else if isSome (afterRunDotSpace isRomanChar line) then true
  else false.

(** [/^•\s+/] replaced by [- ] *)
Definition m_bulletSymbol (line : jsstring) : option (nat * jsstring) :=
  match line with
  | c :: rest =>
      let w := runLength isSpace rest in
      if N.eqb c cBULLET && (1 <=? w) then Some (S w, js "- ") else None
  | [] => None
  end.

(** [/^[a-zA-Z•\-*]\.\s*/] replaced by the empty string *)
Definition m_markerDot (line : jsstring) : option (nat * jsstring) :=
  match line with
  | c :: dot :: rest =>
      if (isAlpha c || isBulletChar c) && N.eqb dot cDOT
      then Some (2 + runLength isSpace rest, [])
      else None
  | _ => None
  end.

Definition convertToMarkdownList (line : jsstring) : jsstring :=
  if re_charSpace (fun c => N.eqb c 45 || N.eqb c 42) line then line
  else if re_charSpace (N.eqb cBULLET) line then replaceAtStart m_bulletSymbol line
  else if isSome (afterRunDotSpace isDigit line) then line
  else js "- " ++ replaceAtStart m_markerDot line.

Definition codeKeywords : list jsstring :=
  [js "function"; js "var"; js "let"; js "const"; js "if"; js "else"; js "for";
   js "while"; js "class"; js "def"; js "import"; js "export"].

Definition isCodePunct (c : char) : bool :=                (* [{}();] *)
  N.eqb c 123 || N.eqb c 125 || N.eqb c 40 || N.eqb c 41 || N.eqb c 59.

Definition notWordAt (s : jsstring) : bool :=
  match s with
  | c :: _ => negb (isWordChar c)
  | [] => true
  end.

(** [/\b(k1|k2|...)\b/]: somewhere a keyword stands with no word character
    before it and none after it. *)
Fixpoint re_wholeWord (keywords : list jsstring) (prev : option char)
         (s : jsstring) : bool :=
  match s with
  | [] => false
  | c :: rest =>
      (match prev with Some p => negb (isWordChar p) | None => true end
       && existsb (fun k => startsWith k s && notWordAt (skipn (length k) s)) keywords)
      || re_wholeWord keywords (Some c) rest
  end.

Definition isCodeLine (line : jsstring) : bool :=
  if startsWith (js "    ") line then true
  else if existsb isCodePunct line &&
          negb (match trim line with c :: _ => isUpper c | [] => false end)
  then true
  else if re_wholeWord codeKeywords None line then true
  else false.

Definition isQuoteChar (c : char) : bool := N.eqb c cDQ || N.eqb c cSQ.

(** [/^["'].*["']$/]: a quote first, a quote last, and no line terminator
    between them. *)
Definition re_wrappedInQuotes (line : jsstring) : bool :=
  match line with
  | q :: rest =>
      isQuoteChar q &&
      match rev rest with
      | q' :: middle => isQuoteChar q' && forallb (fun c => negb (isLineTerminator c)) middle
      | [] => false
      end
  | [] => false
  end.

Definition isQuote (line : jsstring) : bool :=
  if re_charSpace (N.eqb 62) line then true
  else if re_wrappedInQuotes line then true
  else if startsWith (js "Quote:") line ||
          (match line with c :: _ => isQuoteChar c | [] => false end)
  then true
  else false.

(** [/^>\s*/] replaced by the empty string *)
Definition m_quoteMarker (line : jsstring) : option (nat * jsstring) :=
  match line with
  | c :: rest => if N.eqb c 62 then Some (S (runLength isSpace rest), []) else None
  | [] => None
  end.

(** The body of the loop of [convertPlainTextToMarkdown] at index [i]. *)
Definition processLine (lines : list jsstring) (i : nat) (originalLine : jsstring)
  : jsstring :=
  let line := trim originalLine in
  let nextLine :=
    match nth_error lines (i + 1) with
    | Some l => trim l
    | None => []
    end in
  if isEmpty line then []
  else if isHeader line nextLine then
    let level := getHeaderLevel line i lines in
    repeatChar cHASH level ++ js " " ++ line
  else if isList line then convertToMarkdownList line
  else if isCodeLine originalLine then js "    " ++ line
  else if isQuote line then js "> " ++ replaceAtStart m_quoteMarker line
  else line.

(** [/\r\n/g] and [/\r/g], each replaced by a newline *)
Definition m_crlf : matcher := fun _ s =>
  match s with
  | a :: b :: _ => if N.eqb a cCR && N.eqb b cNL then Some (2, NL) else None
  | _ => None
  end.
Definition m_cr : matcher := fun _ s =>
  match s with
  | a :: _ => if N.eqb a cCR then Some (1, NL) else None
  | [] => None
  end.

Definition notSpace (c : char) : bool := negb (isSpace c).

(** [(https?:\/\/[^\s]+)([\s]|$)] at the start of [s]: the consumed length,
    the address and the white space (if any) after it. *)
Definition urlAt (s : jsstring) : option (nat * jsstring * jsstring) :=
  let scheme :=
    if startsWith (js "https://") s then Some 8
    else if startsWith (js "http://") s then Some 7
    else None in
  match scheme with
  | Some k =>
      let r := runLength notSpace (skipn k s) in
      if 1 <=? r then
        let url := firstn (k + r) s in
        match skipn (k + r) s with
        | w :: _ => Some (k + r + 1, url, [w])
        | [] => Some (k + r, url, [])
        end
      else None
  | None => None
  end.

Definition urlLink (url : jsstring) : jsstring :=
  js "[" ++ url ++ js "](" ++ url ++ js ")".

(** [/(^|[\s])((https?:\/\/[^\s]+))([\s]|$)/g] replaced by [$1[$3]($3)$4] *)
Definition m_url : matcher := fun prev s =>
  let atStart :=
    match prev with
    | None => match urlAt s with
              | Some (n, url, after) => Some (n, urlLink url ++ after)
              | None => None
              end
    | Some _ => None
    end in
  match atStart with
  | Some r => Some r
  | None =>
      match s with
      | w :: rest =>
          if isSpace w then
            match urlAt rest with
            | Some (n, url, after) => Some (S n, w :: urlLink url ++ after)
            | None => None
            end
          else None
      | [] => None
      end
  end.

Definition isLocalChar (c : char) : bool :=                 (* [a-zA-Z0-9._%+-] *)
  isAlpha c || isDigit c || N.eqb c 46 || N.eqb c 95 || N.eqb c 37
  || N.eqb c 43 || N.eqb c 45.
Definition isDomainChar (c : char) : bool :=                (* [a-zA-Z0-9.-] *)
  isAlpha c || isDigit c || N.eqb c 46 || N.eqb c 45.

(** [[a-zA-Z0-9.-]+\.[a-zA-Z]{2,}] as a whole string: the letters after the
    last dot, at least two, and a non-empty domain text before it. *)
Definition isDomain (d : jsstring) : bool :=
  let tld := rev (takeWhile (fun c => negb (N.eqb c cDOT)) (rev d)) in
  match skipn (length tld) (rev d) with
  | _ :: hostRev =>
      (2 <=? length tld) && forallb isAlpha tld
      && negb (isEmpty hostRev) && forallb isDomainChar hostRev
  | [] => false
  end.

(** [[a-zA-Z0-9._%+-]+@[a-zA-Z0-9.-]+\.[a-zA-Z]{2,}] as a whole string *)
Definition isEmailAddress (t : jsstring) : bool :=
  let loc := takeWhile isLocalChar t in
  match skipn (length loc) t with
  | at_ :: d => negb (isEmpty loc) && N.eqb at_ 64 && isDomain d
  | [] => false
  end.

(** The address and the white space after it: as no class of the pattern
    holds white space and the pattern ends at white space or at the end, the
    address is the whole run of non-space code units. *)
Definition emailAt (s : jsstring) : option (nat * jsstring * jsstring) :=
  let t := takeWhile notSpace s in
  if isEmailAddress t then
    match skipn (length t) s with
    | w :: _ => Some (length t + 1, t, [w])
    | [] => Some (length t, t, [])
    end
  else None.

Definition mailLink (addr : jsstring) : jsstring :=
  js "[" ++ addr ++ js "](mailto:" ++ addr ++ js ")".

(** [/(^|[\s])([a-zA-Z0-9._%+-]+@[a-zA-Z0-9.-]+\.[a-zA-Z]{2,})([\s]|$)/g]
    replaced by [$1[$2](mailto:$2)$3] *)
Definition m_email : matcher := fun prev s =>
  let atStart :=
    match prev with
    | None => match emailAt s with
              | Some (n, addr, after) => Some (n, mailLink addr ++ after)
              | None => None
              end
    | Some _ => None
    end in
  match atStart with
  | Some r => Some r
  | None =>
      match s with
      | w :: rest =>
          if isSpace w then
            match emailAt rest with
            | Some (n, addr, after) => Some (S n, w :: mailLink addr ++ after)
            | None => None
            end
          else None
      | [] => None
      end
  end.

(** [processedLines]: the loop body at every index. *)
Fixpoint processLines (lines : list jsstring) (i : nat) (todo : list jsstring)
  : list jsstring :=
  match todo with
  | [] => []
  | originalLine :: rest =>
      processLine lines i originalLine :: processLines lines (S i) rest
  end.

Definition convertPlainTextToMarkdown (textContent : jsstring) : jsstring :=
  let markdown := textContent in
  let markdown := replaceAll m_cr (replaceAll m_crlf markdown) in
  let lines := splitOn cNL markdown in
  let processedLines := processLines lines 0 lines in
  let markdown := join NL processedLines in
  let markdown := replaceAll m_newlines4 markdown in
  let markdown := replaceAll m_url markdown in
  let markdown := replaceAll m_email markdown in
  trim markdown.

End Engine.

End PlainText.
Import PlainText.

(* ================================================================== *)
(** ** Hierarchical (JSON) data *)
(* ================================================================== *)

Module Json.

(** A value as [JSON.parse] returns it.  The properties of an object are
    listed in the order [Object.keys] enumerates them. *)
#[warnings="-register-all"]
Inductive JSValue : Type :=
| JNull
| JBool (b : bool)
| JNumber (x : float)
| JString (s : jsstring)
| JArray (items : list JSValue)
| JObject (props : list (jsstring * JSValue)).

(** [typeof v] *)
Definition typeOf (v : JSValue) : jsstring :=
  match v with
  | JNull | JArray _ | JObject _ => js "object"
  | JBool _ => js "boolean"
  | JNumber _ => js "number"
  | JString _ => js "string"
  end.

(** [typeof v === 'object' && v !== null] *)
Definition isObjectLike (v : JSValue) : bool :=
  match v with
  | JArray _ | JObject _ => true
  | _ => false
  end.

(** [Object.keys(v)] of an object or an array (its indices) *)
Definition objectKeys (v : JSValue) : list jsstring :=
  match v with
  | JObject props => map fst props
  | JArray items => map natToString (seq 0 (length items))
  | _ => []
  end.

Fixpoint assoc {A} (key : jsstring) (l : list (jsstring * A)) : option A :=
  match l with
  | [] => None
  | (k, v) :: rest => if str_eqb k key then Some v else assoc key rest
  end.

(** The own property [key] of [v], for the keys [Object.keys] lists. *)
Definition ownProperty (v : JSValue) (key : jsstring) : option JSValue :=
  match v with
  | JObject props => assoc key props
  | JArray items =>
      assoc key (combine (map natToString (seq 0 (length items))) items)
  | _ => None
  end.

Definition hexDigit (n : N) : char :=
  if N.ltb n 10 then (48 + n)%N else (87 + n)%N.
(** [\uXXXX] *)
Definition unicodeEscape (c : char) : jsstring :=
  [cBSL; 117%N; hexDigit (N.shiftr c 12); hexDigit (N.land (N.shiftr c 8) 15);
   hexDigit (N.land (N.shiftr c 4) 15); hexDigit (N.land c 15)].

Definition isHighSurrogate (c : char) : bool := inRange 55296 56319 c.
Definition isLowSurrogate (c : char) : bool := inRange 56320 57343 c.

(** The body of QuoteJSONString: the two-character escapes, [\u00XX] for the
    other control characters and for a surrogate without its partner. *)
Fixpoint quoteChars (s : jsstring) : jsstring :=
  match s with
  | [] => []
  | c :: rest =>
      if N.eqb c cDQ then cBSL :: cDQ :: quoteChars rest
      else if N.eqb c cBSL then cBSL :: cBSL :: quoteChars rest
      else if N.eqb c 8 then cBSL :: 98%N :: quoteChars rest
      else if N.eqb c 12 then cBSL :: 102%N :: quoteChars rest
      else if N.eqb c 10 then cBSL :: 110%N :: quoteChars rest
      else if N.eqb c 13 then cBSL :: 114%N :: quoteChars rest
      else if N.eqb c 9 then cBSL :: 116%N :: quoteChars rest
      else if N.ltb c 32 then unicodeEscape c ++ quoteChars rest
      else if isHighSurrogate c then
        match rest with
        | d :: rest' =>
            if isLowSurrogate d then c :: d :: quoteChars rest'
            else unicodeEscape c ++ quoteChars rest
        | [] => unicodeEscape c
        end
      else if isLowSurrogate c then unicodeEscape c ++ quoteChars rest
      else c :: quoteChars rest
  end.

Definition quoteJSON (s : jsstring) : jsstring := cDQ :: quoteChars s ++ [cDQ].

Definition boolToString (b : bool) : jsstring :=
  if b then js "true" else js "false".

Definition isFinite (x : float) : bool :=
  match PrimFloat.classify x with
  | PInf | NInf | NaN => false
  | _ => true
  end.

(** The first [n] code units and what a [slice(0, n)] leaves out. *)
Definition sliceTo (n : nat) (s : jsstring) : jsstring := firstn n s.

(** [itemCounts.set(key, (itemCounts.get(key) || 0) + 1)] on a Map, which
    keeps its keys in the order of their first insertion. *)
Fixpoint countItem (key : jsstring) (m : list (jsstring * nat))
  : list (jsstring * nat) :=
  match m with
  | [] => [(key, 1)]
  | (k, n) :: rest =>
      if str_eqb k key then (k, n + 1) :: rest else (k, n) :: countItem key rest
  end.

(** [entries.sort(([,a], [,b]) => b - a)]: by falling count, and stable. *)
Fixpoint insertByCount (e : jsstring * nat) (sorted : list (jsstring * nat))
  : list (jsstring * nat) :=
  match sorted with
  | [] => [e]
  | e' :: rest =>
      if snd e <? snd e' then e' :: insertByCount e rest else e :: sorted
  end.
Definition sortByCount (entries : list (jsstring * nat)) : list (jsstring * nat) :=
  fold_right insertByCount [] entries.

(** [allKeys.add(key)] on a Set, which keeps the order of first insertion. *)
Definition setAdd (allKeys : list jsstring) (key : jsstring) : list jsstring :=
  if existsb (str_eqb key) allKeys then allKeys else allKeys ++ [key].

Section Converter.

Variable numberToString : float -> jsstring.

(** What the prototype chain gives for a key that is not an own property of
    [item]: [None] when no prototype of [item] has the key, so that
    [key in item] is false; otherwise the text the table cell gets from the
    inherited member.  (The members of [Object.prototype] and of
    [Array.prototype], and the text of a built-in function, are the
    engine's.) *)
Variable inheritedCell : JSValue -> jsstring -> option jsstring.

(** [JSON.stringify(v)] without indentation *)
Fixpoint stringify (v : JSValue) : jsstring :=
  match v with
  | JNull => js "null"
  | JBool b => boolToString b
  | JNumber x => if isFinite x then numberToString x else js "null"
  | JString s => quoteJSON s
  | JArray items => js "[" ++ join (js ",") (map stringify items) ++ js "]"
  | JObject props =>
      js "{"
      ++ join (js ",")
              (map (fun kv => quoteJSON (fst kv) ++ js ":" ++ stringify (snd kv)) props)
      ++ js "}"
  end.

(** [String(v)], which is also what a template literal inserts *)
Fixpoint toString (v : JSValue) : jsstring :=
  match v with
  | JNull => js "null"
  | JBool b => boolToString b
  | JNumber x => numberToString x
  | JString s => s
  | JArray items =>
      join (js ",")
           (map (fun item => match item with
                             | JNull => []
                             | _ => toString item
                             end) items)
  | JObject _ => js "[object Object]"
  end.

(** One cell of the array table, for the element [item] and the column
    [key]. *)
Definition tableCell (item : JSValue) (key : jsstring) : jsstring :=
  if isObjectLike item then
    match ownProperty item key with
    | Some value =>
        match value with
        | JNull => []
        | JArray _ | JObject _ => escapePipes (stringify value)
        | _ => escapePipes (toString value)
        end
    | None =>
        match inheritedCell item key with
        | Some text => text
        | None => []
        end
    end
  else [].

(** The keys gathered by the two nested [forEach] over the elements. *)
Definition collectKeys (array : list JSValue) : list jsstring :=
  fold_left (fun allKeys item =>
               if isObjectLike item
               then fold_left setAdd (objectKeys item) allKeys
               else allKeys)
            array [].

Definition numberedItems (array : list JSValue) : list jsstring :=
  map (fun p => natToString (fst p + 1) ++ js ". " ++ toString (snd p))
      (combine (seq 0 (length array)) array).

Definition convertArrayToMarkdownTable (array : list JSValue) : jsstring :=
  match array with
  | [] => js "**Empty array**" ++ NL
  | first :: _ =>
      if isObjectLike first then
        let keys := collectKeys array in
        if length keys =? 0 then js "**Array of empty objects**" ++ NL
        else
          let markdown :=
            js "**Array Table** (" ++ natToString (length array) ++ js " items)" ++ NL ++ NL in
          let markdown := markdown ++ tableLine keys in
          let markdown := markdown ++ tableLine (map (fun _ => js "---") keys) in
          fold_left (fun md item => md ++ tableLine (map (tableCell item) keys))
                    array markdown
      else
        let markdown :=
          js "**Array List** (" ++ natToString (length array) ++ js " items)" ++ NL ++ NL in
        if 20 <? length array then
          let itemCounts :=
            fold_left (fun m item => countItem (toString item) m) array [] in
          let markdown := markdown ++ js "**Item counts:**" ++ NL in
          fold_left (fun md e =>
                       md ++ js "- `" ++ fst e ++ js "`: " ++ natToString (snd e)
                          ++ js " times" ++ NL)
                    (sortByCount itemCounts) markdown
        else
          markdown ++ join NL (numberedItems array) ++ NL
  end.

(** One line of the property summary table. *)
Definition summaryLine (key : jsstring) (value : JSValue) : jsstring :=
  let type :=
    match value with
    | JArray items => js "Array[" ++ natToString (length items) ++ js "]"
    | _ => typeOf value
    end in
  let preview :=
    match value with
    | JNull => toString value
    | JArray items => js "[" ++ natToString (length items) ++ js " items]"
    | JObject props =>
        let keys := map fst props in
        js "{" ++ join (js ", ") (firstn 3 keys)
        ++ (if 3 <? length keys then js "..." else []) ++ js "}"
    | _ =>
        sliceTo 50 (toString value)
        ++ (if 50 <? length (toString value) then js "..." else [])
    end in
  js "| " ++ key ++ js " | " ++ type ++ js " | " ++ escapePipes preview ++ js " |" ++ NL.

Definition propertySummary (entries : list (jsstring * JSValue)) : jsstring :=
  if 10 <? length entries then
    js "## Property Summary" ++ NL ++ NL
    ++ js "| Property | Type | Value Preview |" ++ NL
    ++ js "| --- | --- | --- |" ++ NL
    ++ fold_left (fun md kv => md ++ summaryLine (fst kv) (snd kv)) entries []
    ++ NL ++ js "## Detailed Content" ++ NL ++ NL
  else [].

(** [convertObjectToMarkdown(obj, level)]; it is only ever called on an object
    that is not an array. *)
Fixpoint convertObjectToMarkdown (obj : JSValue) (level : nat) {struct obj} : jsstring :=
  match obj with
  | JObject entries =>
      propertySummary entries ++
      (fix details (es : list (jsstring * JSValue)) : jsstring :=
         match es with
         | [] => []
         | (key, value) :: rest =>
             let heading := repeatChar cHASH (Nat.min level 6) in
             (heading ++ js " " ++ key ++ NL ++ NL)
             ++ match value with
                | JNull => js "*" ++ toString value ++ js "*" ++ NL ++ NL
                | JArray items => convertArrayToMarkdownTable items ++ NL
                | JObject keys =>
                    if length keys =? 0 then js "*Empty object*" ++ NL ++ NL
                    else convertObjectToMarkdown value (level + 1)
                | JString str =>
                    if 100 <? length str
                    then js "```" ++ NL ++ str ++ NL ++ js "```" ++ NL ++ NL
                    else toString value ++ NL ++ NL
                | _ => toString value ++ NL ++ NL
                end
             ++ details rest
         end) entries
  | _ => []
  end.

(** [JSON.parse]: the value, or the message of the SyntaxError it throws. *)
Variable JSON_parse : jsstring -> JSValue + jsstring.

Definition convertJsonToMarkdown (jsonContent : jsstring) : jsstring :=
  match JSON_parse jsonContent with
  | inl data =>
      let markdown := js "# JSON Data" ++ NL ++ NL in
      match data with
      | JArray items =>
          markdown ++ js "**Type:** Array with " ++ natToString (length items)
                   ++ js " items" ++ NL ++ NL
                   ++ convertArrayToMarkdownTable items
      | JObject props =>
          markdown ++ js "**Type:** Object with " ++ natToString (length props)
                   ++ js " properties" ++ NL ++ NL
                   ++ convertObjectToMarkdown data 2
      | _ =>
          markdown ++ js "**Type:** " ++ typeOf data ++ NL ++ NL
                   ++ js "**Value:**" ++ NL ++ js "```json" ++ NL
                   ++ stringify data ++ NL ++ js "```" ++ NL
      end
  | inr message =>
      js "# Invalid JSON Content" ++ NL ++ NL ++ js "**Error:** " ++ message
      ++ NL ++ NL ++ js "**Raw Content:**" ++ NL ++ js "```json" ++ NL
      ++ jsonContent ++ NL ++ js "```" ++ NL
  end.

End Converter.

End Json.
Import Json.

(* ================================================================== *)
(** ** XML documents *)
(* ================================================================== *)

Module Dom.

(** A node of a parsed XML document: text, or an element with its local
    name, its attributes under their qualified names and its child nodes.
    Comments and processing instructions are left out, as nothing here reads
    them and [textContent] skips them. *)
#[warnings="-register-all"]
Inductive Node : Type :=
| Text (data : jsstring)
| Element (localName : jsstring) (attributes : list (jsstring * jsstring))
          (childNodes : list Node).

(** A document is the list of the child nodes of its document node. *)
Definition Document := list Node.

(** A selector list of type selectors, such as ['w\\:p, p']: the names
    ["w:p"] and ["p"], each compared with the local name. *)
Definition selector := list jsstring.

Definition matchesSelector (sel : selector) (n : Node) : bool :=
  match n with
  | Element localName _ _ => existsb (str_eqb localName) sel
  | Text _ => false
  end.

(** The first element among the nodes [l]. *)
Fixpoint firstElement (l : list Node) : option Node :=
  match l with
  | [] => None
  | Text _ :: rest => firstElement rest
  | (Element _ _ _ as e) :: _ => Some e
  end.

(** The elements of the subtree of [n] in document order, [n] first, each
    with its [nextElementSibling]; [next] is that of [n]. *)
Fixpoint subtree (next : option Node) (n : Node) : list (Node * option Node) :=
  match n with
  | Text _ => []
  | Element _ _ childNodes =>
      (n, next) ::
      (fix walk (l : list Node) : list (Node * option Node) :=
         match l with
         | [] => []
         | c :: rest => subtree (firstElement rest) c ++ walk rest
         end) childNodes
  end.

(** The descendants of an element, in document order. *)
Definition descendants (n : Node) : list (Node * option Node) :=
  tl (subtree None n).

(** [document.querySelectorAll(sel)] *)
Fixpoint documentElements (doc : list Node) : list (Node * option Node) :=
  match doc with
  | [] => []
  | c :: rest => subtree (firstElement rest) c ++ documentElements rest
  end.
Definition documentQuerySelectorAll (sel : selector) (doc : Document) : list Node :=
  map fst (filter (fun p => matchesSelector sel (fst p)) (documentElements doc)).

(** [element.querySelectorAll(sel)], each result with its next element
    sibling *)
Definition querySelectorAllSiblings (sel : selector) (n : Node)
  : list (Node * option Node) :=
  filter (fun p => matchesSelector sel (fst p)) (descendants n).

(** [element.querySelectorAll(sel)] *)
Definition querySelectorAll (sel : selector) (n : Node) : list Node :=
  map fst (querySelectorAllSiblings sel n).

(** [element.querySelector(sel)] *)
Definition querySelector (sel : selector) (n : Node) : option Node :=
  hd_error (querySelectorAll sel n).

(** [node.textContent] *)
Fixpoint textContent (n : Node) : jsstring :=
  match n with
  | Text data => data
  | Element _ _ childNodes => flat_map textContent childNodes
  end.

(** [element.getAttribute(name)]; [None] is [null]. *)
Definition getAttribute (name : jsstring) (n : Node) : option jsstring :=
  match n with
  | Element _ attributes _ => assoc name attributes
  | Text _ => None
  end.

(** [element.hasAttribute(name)] *)
Definition hasAttribute (name : jsstring) (n : Node) : bool :=
  isSome (getAttribute name n).

End Dom.
Import Dom.

(* ================================================================== *)
(** ** Word-processing (DOCX) documents *)
(* ================================================================== *)

Module Docx.

(** A Number that is an integer or NaN ([None]).  The integer is held
    exactly; a Number would round it beyond 2^53. *)
Definition number := option Z.

Definition digitValue (c : char) : Z := Z.of_N (c - 48)%N.

Definition isHexDigit (c : char) : bool :=
  isDigit c || inRange 97 102 c || inRange 65 70 c.
Definition hexValue (c : char) : Z :=
  if isDigit c then Z.of_N (c - 48)%N
  else if inRange 97 102 c then Z.of_N (c - 87)%N
  else Z.of_N (c - 55)%N.

Definition digitsValue (radix : Z) (value : char -> Z) (digits : jsstring) : Z :=
  fold_left (fun acc c => (acc * radix + value c)%Z) digits 0%Z.

(** [parseInt(s)] without a radix: leading white space, a sign, [0x] or
    [0X] for radix 16, and the longest prefix of digits; NaN when that
    prefix is empty. *)
Definition parseInt (s : jsstring) : number :=
  let s := trimStart s in
  let '(sign, s) :=
    match s with
    | c :: rest =>
        if N.eqb c 45 then ((-1)%Z, rest)
        else if N.eqb c 43 then (1%Z, rest)
        else (1%Z, s)
    | [] => (1%Z, s)
    end in
  if startsWith (js "0x") s || startsWith (js "0X") s then
    match takeWhile isHexDigit (skipn 2 s) with
    | [] => None
    | digits => Some (sign * digitsValue 16 hexValue digits)%Z
    end
  else
    match takeWhile isDigit s with
    | [] => None
    | digits => Some (sign * digitsValue 10 digitValue digits)%Z
    end.

(** [Math.min(level + 1, 6)] *)
Definition outlineHeading (level : number) : number :=
  match level with
  | Some l => Some (Z.min (l + 1) 6)
  | None => None
  end.

(** [n > 0] *)
Definition isPositive (n : number) : bool :=
  match n with
  | Some z => (0 <? z)%Z
  | None => false
  end.

(** [a || b] for two attribute values: the first that is neither [null] nor
    empty, else the second. *)
Definition orElse (a b : option jsstring) : option jsstring :=
  match a with
  | Some (_ :: _) => a
  | _ => b
  end.

(** [val.match(/[Hh]eading(\d+)/)]: the digits of the leftmost match. *)
Fixpoint headingMatch (val : jsstring) : option jsstring :=
  match val with
  | [] => None
  | c :: rest =>
      if (N.eqb c 72 || N.eqb c 104) && startsWith (js "eading") rest
         && (1 <=? runLength isDigit (skipn 6 rest))
      then Some (takeWhile isDigit (skipn 6 rest))
      else headingMatch rest
  end.

Definition sel_pPr : selector := [js "w:pPr"; js "pPr"].
Definition sel_pStyle : selector := [js "w:pStyle"; js "pStyle"].
Definition sel_outlineLvl : selector := [js "w:outlineLvl"; js "outlineLvl"].
Definition sel_rPr : selector := [js "w:rPr"; js "rPr"].
Definition sel_b : selector := [js "w:b"; js "b"].
Definition sel_i : selector := [js "w:i"; js "i"].
Definition sel_r : selector := [js "w:r"; js "r"].
Definition sel_t : selector := [js "w:t"; js "t"].
Definition sel_p : selector := [js "w:p"; js "p"].

(** The part of [getHeadingLevel] that looks at the paragraph style: the
    level it returns, or [None] when control goes on to the outline level. *)
Definition styleHeading (pPr : Node) : option number :=
  match querySelector sel_pStyle pPr with
  | Some pStyle =>
      match orElse (getAttribute (js "w:val") pStyle) (getAttribute (js "val") pStyle) with
      | Some ((_ :: _) as val) =>
          match headingMatch val with
          | Some digits => Some (parseInt digits)
          | None =>
              if includes (js "Title") val then Some (Some 1%Z)
              else if includes (js "Subtitle") val then Some (Some 2%Z)
              else None
          end
      | _ => None
      end
  | None => None
  end.

Definition getHeadingLevel (paragraph : Node) : number :=
  match querySelector sel_pPr paragraph with
  | Some pPr =>
      match styleHeading pPr with
      | Some level => level
      | None =>
          match querySelector sel_outlineLvl pPr with
          | Some outlineLvl =>
              let attr :=
                orElse (orElse (getAttribute (js "w:val") outlineLvl)
                               (getAttribute (js "val") outlineLvl))
                       (Some (js "0")) in
              let level :=
                match attr with
                | Some text => parseInt text
                | None => None          (* [parseInt(null)] *)
                end in
              outlineHeading level
          | None => Some 0%Z
          end
      end
  | None => Some 0%Z
  end.

(** [element && (!element.hasAttribute('w:val') ||
    element.getAttribute('w:val') !== '0')] *)
Definition isSwitchedOn (element : option Node) : bool :=
  match element with
  | Some e =>
      negb (hasAttribute (js "w:val") e)
      || negb (match getAttribute (js "w:val") e with
               | Some v => str_eqb v (js "0")
               | None => false
               end)
  | None => false
  end.

Record Formatting := { bold : bool; italic : bool }.

Definition getSimpleRunFormatting (run : Node) : Formatting :=
  match querySelector sel_rPr run with
  | Some rPr =>
      {| bold := isSwitchedOn (querySelector sel_b rPr);
         italic := isSwitchedOn (querySelector sel_i rPr) |}
  | None => {| bold := false; italic := false |}
  end.

(** The body of [textNodes.forEach] *)
Definition addText (run : Node) (fullText : jsstring) (textNode : Node) : jsstring :=
  let text := textContent textNode in
  if isEmpty text then fullText
  else
    let formatting := getSimpleRunFormatting run in
    if bold formatting && negb (isEmpty (trim text))
    then fullText ++ js "**" ++ text ++ js "**"
    else if italic formatting && negb (isEmpty (trim text))
    then fullText ++ js "*" ++ text ++ js "*"
    else fullText ++ text.

(** The body of [runs.forEach], for a run and its next element sibling *)
Definition addRun (fullText : jsstring) (r : Node * option Node) : jsstring :=
  let '(run, nextElementSibling) := r in
  let fullText := fold_left (addText run) (querySelectorAll sel_t run) fullText in
  match rev fullText with
  | lastChar :: _ =>
      if negb (isSpace lastChar) then
        match nextElementSibling with
        | Some sibling =>
            match querySelector sel_t sibling with
            | Some nextTextNode =>
                if negb (isEmpty (textContent nextTextNode))
                   && negb (startsWith (js " ") (textContent nextTextNode))
                then fullText ++ js " "
                else fullText
            | None => fullText
            end
        | None => fullText
        end
      else fullText
  | [] => fullText
  end.

(** [/\s+/g] replaced by one space *)
Definition m_spaces : matcher := fun _ s =>
  let r := runLength isSpace s in
  if 1 <=? r then Some (r, js " ") else None.

(** The engine's bound on the length of a string, which ['#'.repeat(n)]
    could exceed, is not part of the embedding. *)
Definition extractParagraphText (paragraph : Node) : jsstring :=
  let headingLevel := getHeadingLevel paragraph in
  let fullText := fold_left addRun (querySelectorAllSiblings sel_r paragraph) [] in
  let fullText := trim (replaceAll m_spaces fullText) in
  if isPositive headingLevel && negb (isEmpty fullText) then
    repeatChar cHASH (Z.to_nat (match headingLevel with Some z => z | None => 0%Z end))
    ++ js " " ++ fullText
  else fullText.

(** The body of [readDocxFile] once the document is parsed. *)
Definition documentToMarkdown (xmlDoc : Document) : jsstring :=
  let markdown :=
    fold_left (fun markdown paragraph =>
                 let paragraphText := extractParagraphText paragraph in
                 if negb (isEmpty (trim paragraphText))
                 then markdown ++ paragraphText ++ NL ++ NL
                 else markdown)
              (documentQuerySelectorAll sel_p xmlDoc) [] in
  if isEmpty (trim markdown) then js "No readable content found in DOCX file"
  else trim markdown.

End Docx.
Import Docx.

(* ================================================================== *)
(** ** The batch entry point *)
(* ================================================================== *)

Module Batch.

(** What a [throw] or a rejected promise carries: an [Error] with its
    message, or some other value. *)
Inductive Thrown : Type :=
| ErrorObject (message : jsstring)
| OtherValue.

(** A computation that returns or throws; awaiting a promise is running it. *)
Definition Exc (A : Type) : Type := (A + Thrown)%type.

Definition ret {A} (a : A) : Exc A := inl a.
Definition throw {A} (t : Thrown) : Exc A := inr t.
Definition bind {A B} (m : Exc A) (f : A -> Exc B) : Exc B :=
  match m with
  | inl a => f a
  | inr t => inr t
  end.
(** [try { m } catch (error) { handler(error) }] *)
Definition tryCatch {A} (m : Exc A) (handler : Thrown -> Exc A) : Exc A :=
  match m with
  | inl a => inl a
  | inr t => handler t
  end.

Notation "x <- m ;; k" := (bind m (fun x => k))
  (at level 61, m at next level, right associativity).

(** [error instanceof Error ? error.message : fallback] *)
Definition messageOr (fallback : jsstring) (error : Thrown) : jsstring :=
  match error with
  | ErrorObject message => message
  | OtherValue => fallback
  end.

(** A [File]: its name, its MIME type and its bytes. *)
Record File := { name : jsstring; type : jsstring; bytes : list N }.

(** [MarkdownFile] of [App.tsx] *)
Record MarkdownFile := {
  md_name : jsstring;
  md_content : jsstring;
  md_originalFile : option jsstring
}.

(** What a [FileReader] reports after [readAsText]: the [load] event with
    its result, which is a string or not, or the [error] event. *)
Inductive ReaderEvent : Type :=
| Load (result : option jsstring)
| ReadError.

(** [/<([^>]+)>/g] with the replacer of [convertXmlToMarkdown]: a [<], a
    non-empty maximal run of code units other than [>], and a [>]. *)
Definition m_tag : matcher := fun _ s =>
  match s with
  | c :: rest =>
      if N.eqb c 60 then
        let tagContent := takeWhile (fun d => negb (N.eqb d 62)) rest in
        match tagContent, skipn (length tagContent) rest with
        | _ :: _, _ :: _ =>
            Some (length tagContent + 2,
                  if startsWith (js "/") tagContent
                  then js "</" ++ skipn 1 tagContent ++ js ">"
                  else js "<" ++ tagContent ++ js ">")
        | _, _ => None
        end
      else None
  | [] => None
  end.

(** [name.replace(/\.[^/.]+$/, '')]: the leftmost dot that is followed, up
    to the end, by one or more code units other than [/] and [.]. *)
Fixpoint removeExtension (name : jsstring) : jsstring :=
  match name with
  | [] => []
  | c :: rest =>
      if N.eqb c cDOT && negb (isEmpty rest)
         && forallb (fun d => negb (N.eqb d 47 || N.eqb d cDOT)) rest
      then []
      else c :: removeExtension rest
  end.

(** [fileName.endsWith('.docx') || fileType.includes('wordprocessingml')] *)
Definition looksLikeDocx (fileName fileType : jsstring) : bool :=
  endsWith (js ".docx") fileName || includes (js "wordprocessingml") fileType.

Section Converter.

Variable toUpperCase : jsstring -> jsstring.
Variable numericValue : jsstring -> float.
Variable numberToString : float -> jsstring.
Variable toFixed2 : float -> jsstring.
Variable inheritedCell : JSValue -> jsstring -> option jsstring.
Variable JSON_parse : jsstring -> JSValue + jsstring.

(** [turndownService.turndown(html)] of the service that
    [createTurndownService] configures. *)
Variable turndown : jsstring -> Exc jsstring.

(** [reader.readAsText(file)]: the event the reader ends with. *)
Variable readAsText : File -> ReaderEvent.

(** [file.arrayBuffer()], [JSZip.loadAsync] and
    [zip.file('word/document.xml')?.async('text')]: the text of the entry,
    [None] for [undefined] when the archive has no such entry, or what one
    of the three rejects with. *)
Variable unzipDocumentXml : File -> Exc (option jsstring).

(** [new DOMParser().parseFromString(xml, 'text/xml')] *)
Variable parseXml : jsstring -> Document.

Definition readDocxFile (file : File) : Exc jsstring :=
  tryCatch
    (documentXml <- unzipDocumentXml file ;;
     match documentXml with
     | Some ((_ :: _) as xml) => ret (documentToMarkdown (parseXml xml))
     | _ => throw (ErrorObject (js "Could not find document content in DOCX file"))
     end)
    (fun error =>
       throw (ErrorObject (js "Failed to read DOCX file: "
                           ++ messageOr (js "Unknown error") error))).

Definition readFileContent (file : File) : Exc jsstring :=
  let fileName := toLowerCase (name file) in
  let fileType := toLowerCase (type file) in
  if looksLikeDocx fileName fileType then readDocxFile file
  else
    match readAsText file with
    | Load (Some result) => ret result
    | Load None => throw (ErrorObject (js "Failed to read file as text"))
    | ReadError => throw (ErrorObject (js "Error reading file"))
    end.

Definition convertXmlToMarkdown (xmlContent : jsstring) : jsstring :=
  let attempt :=
    let htmlContent := replaceAll m_tag xmlContent in
    converted <- turndown htmlContent ;;
    ret (js "# XML Content" ++ NL ++ NL ++ converted) in
  match attempt with
  | inl markdown => markdown
  | inr _ =>
      js "# XML Content" ++ NL ++ NL ++ js "```xml" ++ NL ++ xmlContent ++ NL
      ++ js "```" ++ NL
  end.

(** The converter [convertContentToMarkdown] picks, before the cleanup. *)
Definition processContent (content : jsstring) (file : File) : Exc jsstring :=
  let fileType := toLowerCase (type file) in
  let fileName := toLowerCase (name file) in
  if looksLikeDocx fileName fileType then
    throw (ErrorObject
             (js "DOCX file should be processed by readDocxFile, not convertContentToMarkdown"))
  else if includes (js "html") fileType || endsWith (js ".html") fileName
          || endsWith (js ".htm") fileName then
    turndown content
  else if includes (js "json") fileType || endsWith (js ".json") fileName then
    ret (convertJsonToMarkdown numberToString inheritedCell JSON_parse content)
  else if includes (js "csv") fileType || endsWith (js ".csv") fileName then
    ret (convertCsvToMarkdown numericValue numberToString toFixed2 content)
  else if includes (js "xml") fileType || endsWith (js ".xml") fileName then
    ret (convertXmlToMarkdown content)
  else
    ret (convertPlainTextToMarkdown toUpperCase content).

Definition convertContentToMarkdown (content : jsstring) (file : File) : Exc jsstring :=
  processedContent <- processContent content file ;;
  ret (cleanupMarkdownContent processedContent).

(** The body of the [try] block of the loop, up to the document pushed. *)
Definition convertFile (file : File) : Exc MarkdownFile :=
  let fileName := removeExtension (name file) ++ js ".md" in
  markdownContent <-
    (if endsWith (js ".docx") (toLowerCase (name file))
        || includes (js "wordprocessingml") (type file)
     then readFileContent file
     else content <- readFileContent file ;; convertContentToMarkdown content file) ;;
  ret {| md_name := fileName;
         md_content := markdownContent;
         md_originalFile := Some (name file) |}.

(** The document pushed by the [catch] block. *)
Definition errorDocument (file : File) (error : Thrown) : MarkdownFile :=
  {| md_name := js "ERROR_" ++ name file ++ js ".md";
     md_content :=
       js "# Conversion Error" ++ NL ++ NL
       ++ js "**File:** " ++ name file ++ NL
       ++ js "**Error:** " ++ messageOr (js "Unknown error") error ++ NL ++ NL
       ++ js "*This file could not be converted to markdown.*";
     md_originalFile := Some (name file) |}.

(** One turn of the loop: the document for [file]. *)
Definition convertOrReport (file : File) : MarkdownFile :=
  match convertFile file with
  | inl document => document
  | inr error => errorDocument file error
  end.

(** The progress callback, when the caller gives one: called with a number,
    it returns ([None]) or throws. *)
Definition Callback := option (nat -> option Thrown).

(** [onProgress?.(n)]: the calls made so far, and what the call throws. *)
Definition notify (onProgress : Callback) (calls : list nat) (n : nat)
  : list nat * option Thrown :=
  match onProgress with
  | Some callback => (calls ++ [n], callback n)
  | None => (calls, None)
  end.

(** The loop of [convertFilesToMarkdown] from index [i] on, [files] being the
    files not yet visited; the result comes with the arguments of the calls
    made to the callback. *)
Fixpoint convertLoop (onProgress : Callback) (i : nat) (files : list File)
         (markdownFiles : list MarkdownFile) (calls : list nat)
  : list nat * Exc (list MarkdownFile) :=
  match files with
  | [] =>
      match notify onProgress calls i with
      | (calls, Some thrown) => (calls, throw thrown)
      | (calls, None) => (calls, ret markdownFiles)
      end
  | file :: rest =>
      match notify onProgress calls i with
      | (calls, Some thrown) => (calls, throw thrown)
      | (calls, None) =>
          convertLoop onProgress (S i) rest
                      (markdownFiles ++ [convertOrReport file]) calls
      end
  end.

Definition convertFilesToMarkdown (files : list File) (onProgress : Callback)
  : list nat * Exc (list MarkdownFile) :=
  convertLoop onProgress 0 files [] [].

End Converter.

End Batch.
Import Batch.

(* ================================================================== *)
(** ** Replacement functions of the Turndown rules *)
(* ================================================================== *)

Module TurndownRules.

(** The replacement of the rule [improvedBlockquotes]:
    [content.split('\n').map(line => '> ' + line).join('\n') + '\n'] *)
Definition blockquoteReplacement (content : jsstring) : jsstring :=
  join NL (map (fun line => js "> " ++ line) (splitOn cNL content)) ++ NL.

(** [/[ \t]+/g] replaced by one space *)
Definition m_blanks : matcher := fun _ s =>
  let r := runLength isBlankChar s in
  if 1 <=? r then Some (r, js " ") else None.

(** [/\n\s+/g] replaced by a newline *)
Definition m_newlineSpaces : matcher := fun _ s =>
  match s with
  | c :: rest =>
      let r := runLength isSpace rest in
      if N.eqb c cNL && (1 <=? r) then Some (S r, NL) else None
  | [] => None
  end.

(** The replacement of the rule [preserveSpaces]; [insideCode] is
    [node.closest && (node.closest('pre') || node.closest('code'))]. *)
Definition preserveSpacesReplacement (insideCode : bool) (content : jsstring)
  : jsstring :=
  if insideCode then content
  else replaceAll m_newlineSpaces (replaceAll m_blanks content).

End TurndownRules.
Import TurndownRules.

(* ================================================================== *)
(** ** The list of selected files *)
(* ================================================================== *)

Module Upload.

(** [String(n)] for an integer *)
Definition integerToString (n : Z) : jsstring :=
  if (n <? 0)%Z then js "-" ++ natToString (Z.to_nat (- n))
  else natToString (Z.to_nat n).

Section Selection.

(** [file.lastModified], in milliseconds; [file.size] is the number of the
    bytes. *)
Variable lastModified : File -> Z.

(** The template [`${file.name}-${file.size}-${file.lastModified}`] *)
Definition fileKey (file : File) : jsstring :=
  name file ++ js "-" ++ natToString (length (bytes file)) ++ js "-"
  ++ integerToString (lastModified file).

(** The state update of [addFilesToList]: from the files selected before to
    the files selected now. *)
Definition addFilesToList (newFiles prevFiles : list File) : list File :=
  let existingFileKeys := map fileKey prevFiles in
  let uniqueNewFiles :=
    filter (fun file => negb (existsb (str_eqb (fileKey file)) existingFileKeys))
           newFiles in
  prevFiles ++ uniqueNewFiles.

End Selection.

(** The state update of [removeFile]: [files.filter((_, i) => i !== index)] *)
Definition removeFile (index : nat) (files : list File) : list File :=
  map snd (filter (fun p => negb (fst p =? index))
                  (combine (seq 0 (length files)) files)).

End Upload.
Import Upload.

(* ================================================================== *)
(** ** Vocabulary of the properties *)
(* ================================================================== *)

Module Stated.

(** A string [trim] leaves alone: no white space first or last. *)
Definition isTrimmed (s : jsstring) : bool :=
  match s with
  | [] => true
  | c :: _ => negb (isSpace c) && negb (isSpace (last s c))
  end.

(** [cell] is [text] without the white space at its two ends. *)
Definition TrimOf (cell text : jsstring) : Prop :=
  isTrimmed cell = true
  /\ exists lead trail,
       text = lead ++ cell ++ trail
       /\ forallb isSpace lead = true
       /\ forallb isSpace trail = true.

(** The commas of a line that stand outside quotes: those with an even
    number of quotes before them, [quotesBefore] being the number of quotes
    before the line. *)
Fixpoint commasOutsideQuotes (quotesBefore : nat) (line : jsstring) : nat :=
  match line with
  | [] => 0
  | c :: rest =>
      if N.eqb c cDQ then commasOutsideQuotes (S quotesBefore) rest
      else (if N.eqb c cCOMMA && Nat.even quotesBefore then 1 else 0)
           + commasOutsideQuotes quotesBefore rest
  end.

(** A field written the way a CSV writer quotes it: between two quotes,
    every quote of the field doubled. *)
Definition doubleQuotes (field : jsstring) : jsstring :=
  flat_map (fun c => if N.eqb c cDQ then [cDQ; cDQ] else [c]) field.
Definition quoteField (field : jsstring) : jsstring :=
  cDQ :: doubleQuotes field ++ [cDQ].
Definition quoteLine (fields : list jsstring) : jsstring :=
  join [cCOMMA] (map quoteField fields).

(** The cell of [row] in the column [colIndex] is there and is not blank. *)
Definition hasValue (colIndex : nat) (row : list jsstring) : bool :=
  match nth_error row colIndex with
  | Some cell => negb (isEmpty (trim cell))
  | None => false
  end.

(** That cell, trimmed, starts (after white space) with a decimal literal,
    which is when [parseFloat] gives a number for it. *)
Definition parsesAsNumber (colIndex : nat) (row : list jsstring) : bool :=
  match nth_error row colIndex with
  | Some cell => isSome (strDecimalPrefix (trimStart (trim cell)))
  | None => false
  end.

(** Upper-casing the letters a to z and nothing else: what [toUpperCase]
    does to a text that has no code unit outside ASCII. *)
Definition asciiUpperCase (s : jsstring) : jsstring :=
  map (fun c => if N.leb 97 c && N.leb c 122 then (c - 32)%N else c) s.







(** The same rule with its tests in the order in which the first that holds
    decides, each test said without the code's matchers. *)








(** A paragraph of a word-processing document: its style and one run of
    text. *)
Definition styledParagraph (style text : jsstring) : Node :=
  Element (js "p") []
    [Element (js "pPr") [] [Element (js "pStyle") [(js "w:val", style)] []];
     Element (js "r") [] [Element (js "t") [] [Text text]]].

(** A paragraph with an outline level in place of a style. *)
Definition outlinedParagraph (level text : jsstring) : Node :=
  Element (js "p") []
    [Element (js "pPr") [] [Element (js "outlineLvl") [(js "w:val", level)] []];
     Element (js "r") [] [Element (js "t") [] [Text text]]].

(** The keys of a list in the order of their first occurrence, each once. *)
Fixpoint firstSeen (keys : list jsstring) : list jsstring :=
  match keys with
  | [] => []
  | k :: rest => k :: filter (fun k' => negb (str_eqb k k')) (firstSeen rest)
  end.



(** Stand-ins for the engine in the examples, none of which has a number or
    reaches a prototype: no key is inherited, and a number prints as [0]. *)
Definition nothingInherited : JSValue -> jsstring -> option jsstring :=
  fun _ _ => None.
Definition exampleNumberToString : float -> jsstring := fun _ => js "0".



(** More stand-ins for the examples: a literal always has the value zero,
    JSON text is never well formed, Turndown and the file reader give back
    the text they get, a file without bytes is no archive and every other
    one holds a document part, and parsing it gives a document whose one
    paragraph is the word Hello. *)
Definition exampleNumericValue : jsstring -> float := fun _ => PrimFloat.zero.
Definition exampleJSON_parse : jsstring -> JSValue + jsstring :=
  fun _ => inr (js "Unexpected token").
Definition exampleTurndown : jsstring -> Exc jsstring := fun html => inl html.
Definition exampleReadAsText : File -> ReaderEvent :=
  fun file => Load (Some (bytes file)).
Definition exampleUnzip : File -> Exc (option jsstring) :=
  fun file =>
    match bytes file with
    | [] => inr (ErrorObject (js "Corrupted zip"))
    | _ :: _ => inl (Some (js "<w:document/>"))
    end.
Definition exampleParseXml : jsstring -> Document :=
  fun _ => [Element (js "document") []
              [Element (js "body") []
                 [Element (js "p") []
                    [Element (js "r") [] [Element (js "t") [] [Text (js "Hello")]]]]]].

(** [convertFile] and [convertFilesToMarkdown] with these stand-ins. *)
Definition exampleConvertFile : File -> Exc MarkdownFile :=
  convertFile asciiUpperCase exampleNumericValue exampleNumberToString exampleNumberToString
              nothingInherited exampleJSON_parse exampleTurndown
              exampleReadAsText exampleUnzip exampleParseXml.
Definition exampleConvertFiles
  : list File -> Callback -> list nat * Exc (list MarkdownFile) :=
  convertFilesToMarkdown asciiUpperCase exampleNumericValue exampleNumberToString
                         exampleNumberToString nothingInherited exampleJSON_parse
                         exampleTurndown exampleReadAsText exampleUnzip
                         exampleParseXml.

(** The content of the document that reports a failed conversion, for the
    name of the file and the message shown. *)
Definition statedErrorContent (fileName message : jsstring) : jsstring :=
  js "# Conversion Error" ++ NL ++ NL
  ++ js "**File:** " ++ fileName ++ NL
  ++ js "**Error:** " ++ message ++ NL ++ NL
  ++ js "*This file could not be converted to markdown.*".

Definition helloDocx : File :=
  {| name := js "hello.docx"; type := []; bytes := js "PK" |}.
Definition brokenDocx : File :=
  {| name := js "broken.docx"; type := []; bytes := [] |}.
Definition emptyText : File :=
  {| name := js "empty.txt"; type := js "text/plain"; bytes := [] |}.
Definition notesText : File :=
  {| name := js "notes.txt"; type := js "text/plain";
     bytes := js "Some notes" |}.

(** Every pipe of [s] has a backslash right before it; [prev] is the code
    unit before [s]. *)
Fixpoint pipesEscaped (prev : option char) (s : jsstring) : bool :=
  match s with
  | [] => true
  | c :: rest =>
      (if N.eqb c cPIPE
       then match prev with Some p => N.eqb p cBSL | None => false end
       else true)
      && pipesEscaped (Some c) rest
  end.

(** Reading an escaped cell back: a backslash and a pipe stand for a pipe. *)
Fixpoint unescapePipes (s : jsstring) : jsstring :=
  match s with
  | [] => []
  | a :: rest =>
      match rest with
      | b :: rest' =>
          if N.eqb a cBSL && N.eqb b cPIPE then cPIPE :: unescapePipes rest'
          else a :: unescapePipes rest
      | [] => [a]
      end
  end.

(** The lines of a block quote without the two characters of the marker
    that every line starts with. *)
Definition stripQuoteMarkers (quoted : jsstring) : jsstring :=
  join NL (map (skipn 2) (splitOn cNL quoted)).






(** The only white space of [s] is the plain space. *)
Definition plainSpaces (s : jsstring) : Prop :=
  Forall (fun c => isSpace c = true -> c = cSP) s.

(** No newline of [s] is followed by white space. *)
Fixpoint noSpaceAfterNewline (s : jsstring) : bool :=
  match s with
  | [] => true
  | a :: rest =>
      match rest with
      | b :: _ => negb (N.eqb a cNL && isSpace b)
      | [] => true
      end
      && noSpaceAfterNewline rest
  end.

(** [s] is empty or starts with something other than white space. *)
Definition startsWithText (s : jsstring) : bool :=
  match s with
  | [] => true
  | c :: _ => negb (isSpace c)
  end.

End Stated.
Import Stated.

(* ================================================================== *)
(** * Properties *)
(* ================================================================== *)

Unset Implicit Arguments.

(** ** Strings *)

Lemma str_eqb_refl (s : jsstring) : str_eqb s s = true.
Proof. induction s; simpl; [reflexivity | now rewrite N.eqb_refl]. Qed.

Lemma str_eqb_eq (a b : jsstring) : str_eqb a b = true <-> a = b.
Proof.
  split; [| intros ->; apply str_eqb_refl].
  revert b; induction a as [|x a IH]; intros [|y b]; simpl; try discriminate; auto.
  intros H. apply andb_prop in H as [Hx Hab].
  apply N.eqb_eq in Hx. f_equal; auto.
Qed.

Lemma dropWhile_idem (p : char -> bool) (s : jsstring) :
  dropWhile p (dropWhile p s) = dropWhile p s.
Proof.
  induction s as [|c s IH]; simpl; [reflexivity|].
  destruct (p c) eqn:E; [exact IH | simpl; now rewrite E].
Qed.

Lemma dropWhile_head (p : char -> bool) (s : jsstring) :
  match dropWhile p s with
  | [] => True
  | c :: _ => p c = false
  end.
Proof.
  induction s as [|c s IH]; simpl; [exact I|].
  destruct (p c) eqn:E; [exact IH | exact E].
Qed.

Lemma dropWhile_fixed (p : char -> bool) (c : char) (s : jsstring) :
  p c = false -> dropWhile p (c :: s) = c :: s.
Proof. intros H; simpl; now rewrite H. Qed.

(** Dropping at the front of [s ++ [c]] stops at [c] at the latest. *)
Lemma dropWhile_snoc (p : char -> bool) (s : jsstring) (c : char) :
  p c = false -> exists t, dropWhile p (s ++ [c]) = t ++ [c].
Proof.
  intros Hc. induction s as [|d s IH]; simpl.
  - rewrite Hc. now exists [].
  - destruct (p d); [exact IH | now exists (d :: s)].
Qed.

Lemma trimEnd_head (c : char) (s : jsstring) :
  isSpace c = false -> exists t, trimEnd (c :: s) = c :: t.
Proof.
  intros Hc. unfold trimEnd. simpl rev.
  destruct (dropWhile_snoc isSpace (rev s) c Hc) as [t Ht].
  rewrite Ht, rev_app_distr. simpl. now exists (rev t).
Qed.

Lemma trimEnd_idem (s : jsstring) : trimEnd (trimEnd s) = trimEnd s.
Proof. unfold trimEnd. now rewrite rev_involutive, dropWhile_idem. Qed.

Lemma trimEnd_last (s : jsstring) (d : char) :
  trimEnd s <> [] -> isSpace (last (trimEnd s) d) = false.
Proof.
  unfold trimEnd. intros Hne.
  pose proof (dropWhile_head isSpace (rev s)) as H.
  destruct (dropWhile isSpace (rev s)) as [|c t]; [now elim Hne|].
  simpl rev. now rewrite last_last.
Qed.

Lemma trim_head (s : jsstring) :
  match trim s with
  | [] => True
  | c :: _ => isSpace c = false
  end.
Proof.
  unfold trim, trimStart.
  pose proof (dropWhile_head isSpace s) as H.
  destruct (dropWhile isSpace s) as [|c t]; [exact I|].
  destruct (trimEnd_head c t H) as [u ->]. exact H.
Qed.

Lemma trim_isTrimmed (s : jsstring) : isTrimmed (trim s) = true.
Proof.
  unfold isTrimmed.
  pose proof (trim_head s) as Hh.
  destruct (trim s) as [|c t] eqn:E; [reflexivity|].
  rewrite Hh. cbn [negb andb].
  unfold trim in E. rewrite <- E.
  rewrite trimEnd_last; [reflexivity | now rewrite E].
Qed.

Lemma isTrimmed_trim (s : jsstring) : isTrimmed s = true -> trim s = s.
Proof.
  unfold isTrimmed. destruct s as [|c t]; [reflexivity|].
  intros H. apply andb_prop in H as [Hc Hl].
  apply negb_true_iff in Hc. apply negb_true_iff in Hl.
  unfold trim, trimStart. rewrite (dropWhile_fixed _ _ _ Hc).
  unfold trimEnd.
  destruct (exists_last (l := c :: t)) as [u [d Hu]]; [discriminate|].
  rewrite Hu in *. rewrite last_last in Hl.
  rewrite rev_app_distr. simpl. rewrite Hl. simpl.
  now rewrite rev_involutive.
Qed.

Lemma trim_idem (s : jsstring) : trim (trim s) = trim s.
Proof. apply isTrimmed_trim, trim_isTrimmed. Qed.

(** ** The CSV line parser *)

Lemma parseCSVLine_loop_fields (n : nat) :
  forall line current inQuotes result,
    length line <= n ->
    exists fields,
      parseCSVLine_loop line current inQuotes result = result ++ fields
      /\ fields <> []
      /\ Forall (fun field => trim field = field) fields.
Proof.
  induction n as [|n IH]; intros line current inQuotes result Hlen.
  - destruct line; [| simpl in Hlen; lia].
    exists [trim current]. simpl. repeat split; [discriminate|].
    constructor; [apply trim_idem | constructor].
  - destruct line as [|c rest].
    + exists [trim current]. simpl. repeat split; [discriminate|].
      constructor; [apply trim_idem | constructor].
    + simpl in Hlen. cbn [parseCSVLine_loop].
      destruct (N.eqb c cDQ).
      * destruct rest as [|c' rest'].
        -- apply IH. simpl. lia.
        -- destruct (inQuotes && N.eqb c' cDQ); apply IH; simpl in *; lia.
      * destruct (N.eqb c cCOMMA && negb inQuotes).
        -- destruct (IH rest [] inQuotes (result ++ [trim current])) as [fs [E [Hne Ht]]];
             [lia|].
           exists (trim current :: fs). rewrite E, <- app_assoc. simpl.
           repeat split; [discriminate|].
           constructor; [apply trim_idem | exact Ht].
        -- apply IH. lia.
Qed.

Lemma parseCSVLine_nonempty (line : jsstring) : 1 <= length (parseCSVLine line).
Proof.
  unfold parseCSVLine.
  destruct (parseCSVLine_loop_fields (length line) line [] false [] (le_n _))
    as [fs [E [Hne _]]].
  rewrite E. simpl. destruct fs; [now elim Hne | simpl; lia].
Qed.

Lemma parseCSVLine_trimmed (line : jsstring) :
  Forall (fun field => trim field = field) (parseCSVLine line).
Proof.
  unfold parseCSVLine.
  destruct (parseCSVLine_loop_fields (length line) line [] false [] (le_n _))
    as [fs [E [_ Ht]]].
  rewrite E. exact Ht.
Qed.

(** Inside quotes the doubled quotes of a field are read back as the field,
    and the closing quote, when no quote follows it, leaves the quotes. *)
Lemma parseCSVLine_loop_quoted (field rest current : jsstring) (result : list jsstring) :
  startsWith [cDQ] rest = false ->
  parseCSVLine_loop (doubleQuotes field ++ cDQ :: rest) current true result
  = parseCSVLine_loop rest (current ++ field) false result.
Proof.
  intros Hrest. revert current.
  induction field as [|c field IH]; intros current.
  - rewrite app_nil_r. cbn [doubleQuotes flat_map app parseCSVLine_loop].
    rewrite N.eqb_refl.
    destruct rest as [|c' rest']; [reflexivity|].
    cbn [startsWith] in Hrest. rewrite andb_true_r, N.eqb_sym in Hrest.
    now rewrite Hrest.
  - unfold doubleQuotes in *. cbn [flat_map].
    destruct (N.eqb c cDQ) eqn:E.
    + apply N.eqb_eq in E. subst c.
      cbn [app parseCSVLine_loop]. rewrite N.eqb_refl. cbn [andb].
      rewrite IH. now rewrite <- app_assoc.
    + cbn [app parseCSVLine_loop]. rewrite E.
      replace (N.eqb c cCOMMA && negb true) with false by now rewrite andb_false_r.
      rewrite IH. now rewrite <- app_assoc.
Qed.

Lemma parseCSVLine_loop_quoteField (field rest : jsstring) (result : list jsstring) :
  startsWith [cDQ] rest = false ->
  parseCSVLine_loop (quoteField field ++ rest) [] false result
  = parseCSVLine_loop rest field false result.
Proof.
  intros Hrest. unfold quoteField.
  cbn [app parseCSVLine_loop]. rewrite N.eqb_refl. cbn [andb negb].
  rewrite <- app_assoc. cbn [app].
  assert (E : parseCSVLine_loop (doubleQuotes field ++ cDQ :: rest) [] true result
              = parseCSVLine_loop rest field false result)
    by (now rewrite parseCSVLine_loop_quoted).
  destruct (doubleQuotes field ++ cDQ :: rest) eqn:D; exact E.
Qed.

Lemma parseCSVLine_loop_quoteLine (fields : list jsstring) :
  forall field result,
    parseCSVLine_loop (quoteLine (field :: fields)) [] false result
    = result ++ map trim (field :: fields).
Proof.
  unfold quoteLine.
  induction fields as [|g fields IH]; intros field result.
  - cbn [map join].
    rewrite <- (app_nil_r (quoteField field)).
    rewrite parseCSVLine_loop_quoteField; reflexivity.
  - change (join [cCOMMA] (map quoteField (field :: g :: fields)))
      with (quoteField field ++ [cCOMMA] ++ join [cCOMMA] (map quoteField (g :: fields))).
    rewrite parseCSVLine_loop_quoteField; [| reflexivity].
    cbn [app parseCSVLine_loop]. cbn [N.eqb cCOMMA cDQ Pos.eqb andb negb].
    rewrite IH. now rewrite <- app_assoc.
Qed.

Lemma takeWhile_dropWhile (p : char -> bool) (s : jsstring) :
  s = takeWhile p s ++ dropWhile p s.
Proof.
  induction s as [|c s IH]; [reflexivity|].
  cbn [takeWhile dropWhile]. destruct (p c); [cbn [app]; now f_equal | reflexivity].
Qed.

Lemma takeWhile_all (p : char -> bool) (s : jsstring) :
  forallb p (takeWhile p s) = true.
Proof.
  induction s as [|c s IH]; [reflexivity|].
  cbn [takeWhile]. destruct (p c) eqn:E; [cbn [forallb]; now rewrite E | reflexivity].
Qed.

Lemma forallb_rev (p : char -> bool) (s : jsstring) :
  forallb p (rev s) = forallb p s.
Proof.
  induction s as [|c s IH]; [reflexivity|].
  cbn [rev forallb]. rewrite forallb_app, IH. cbn [forallb].
  rewrite andb_true_r. apply andb_comm.
Qed.

(** What [trim] gives is the text without the white space at its ends. *)
Lemma trim_TrimOf (text : jsstring) : TrimOf (trim text) text.
Proof.
  split; [apply trim_isTrimmed|].
  exists (takeWhile isSpace text),
         (rev (takeWhile isSpace (rev (dropWhile isSpace text)))).
  split; [| split; [apply takeWhile_all | rewrite forallb_rev; apply takeWhile_all]].
  unfold trim, trimStart, trimEnd.
  rewrite <- rev_app_distr, <- takeWhile_dropWhile, rev_involutive.
  apply takeWhile_dropWhile.
Qed.

(** A comma ends a field when the quotes before it are even in number. *)
Lemma parseCSVLine_loop_count (bound : nat) :
  forall line current quotesBefore result,
    length line <= bound ->
    length (parseCSVLine_loop line current (Nat.odd quotesBefore) result)
    = length result + S (commasOutsideQuotes quotesBefore line).
Proof.
  induction bound as [|bound IH]; intros line current q result Hlen.
  - destruct line; [| simpl in Hlen; lia].
    cbn. rewrite length_app. simpl. lia.
  - destruct line as [|c rest].
    + cbn. rewrite length_app. simpl. lia.
    + simpl in Hlen. cbn [parseCSVLine_loop commasOutsideQuotes].
      destruct (N.eqb c cDQ).
      * assert (Hflip : negb (Nat.odd q) = Nat.odd (S q)).
        { rewrite Nat.odd_succ, <- Nat.negb_odd. reflexivity. }
        destruct rest as [|c' rest'].
        -- rewrite Hflip. apply IH. simpl. lia.
        -- destruct (Nat.odd q && N.eqb c' cDQ) eqn:E.
           ++ apply andb_prop in E as [Eq Ec].
              cbn [commasOutsideQuotes]. rewrite Ec.
              replace (Nat.odd q) with (Nat.odd (S (S q))) at 1
                by (rewrite !Nat.odd_succ, Nat.even_succ; reflexivity).
              apply IH. simpl in Hlen. lia.
           ++ rewrite Hflip. apply IH. simpl in *. lia.
      * rewrite <- Nat.negb_odd.
        destruct (N.eqb c cCOMMA && negb (Nat.odd q)).
        -- rewrite IH by lia. rewrite length_app. simpl. lia.
        -- rewrite IH by lia. lia.
Qed.

(** C4.  The line parser gives the cells of a line as follows.  Every cell
    is trimmed: it has no white space at either end.  A comma ends a cell
    exactly when it stands outside quotes, that is, after an even number of
    quotes (each quote toggles), so that the cells are one more than those
    commas.  Fields written between quotes with their own quotes doubled and
    put together with commas are read back as those fields, commas and quotes
    inside them included, each without the white space at its ends.  The line
    made of [a], of [b,c] in quotes and of [d], a doubled quote and [e] in
    quotes gives the three cells [a], [b,c] and [d], a quote, [e]; and white
    space around a cell and inside its quotes is taken off. *)
Theorem parseCSVLine_rules :
  (forall line, Forall (fun cell => isTrimmed cell = true) (parseCSVLine line))
  /\ (forall line, length (parseCSVLine line) = S (commasOutsideQuotes 0 line))
  /\ (forall field fields,
         Forall2 TrimOf (parseCSVLine (quoteLine (field :: fields)))
                 (field :: fields))
  /\ parseCSVLine (js "a," ++ [cDQ] ++ js "b,c" ++ [cDQ; cCOMMA; cDQ] ++ js "d"
                   ++ [cDQ; cDQ] ++ js "e" ++ [cDQ])
     = [js "a"; js "b,c"; js "d" ++ [cDQ] ++ js "e"]
  /\ parseCSVLine (js "  a ," ++ [cDQ] ++ js " b, c " ++ [cDQ] ++ js " , ")
     = [js "a"; js "b, c"; []].
Proof.
  split; [| split; [| split; [| split]]].
  - intros line. pose proof (parseCSVLine_trimmed line) as H.
    revert H. apply Forall_impl. intros cell E.
    rewrite <- E. apply trim_isTrimmed.
  - intros line. unfold parseCSVLine.
    apply (parseCSVLine_loop_count (length line) line [] 0 []). lia.
  - intros field fields. unfold parseCSVLine.
    rewrite parseCSVLine_loop_quoteLine. cbn [app].
    generalize (field :: fields) as l.
    induction l as [|f l IH]; cbn [map]; constructor; [apply trim_TrimOf | exact IH].
  - vm_compute. reflexivity.
  - vm_compute. reflexivity.
Qed.

(** ** The CSV converter *)

Lemma splitOn_nonempty (sep : char) (s : jsstring) : 1 <= length (splitOn sep s).
Proof.
  induction s as [|c s IH]; simpl; [lia|].
  destruct (N.eqb c sep); [simpl; lia|].
  destruct (splitOn sep s); simpl in *; lia.
Qed.

Lemma fold_left_append {A} (f : A -> jsstring) (l : list A) (init : jsstring) :
  fold_left (fun md x => md ++ f x) l init = init ++ flat_map f l.
Proof.
  revert init. induction l as [|x l IH]; intros init; simpl.
  - now rewrite app_nil_r.
  - now rewrite IH, app_assoc.
Qed.

Section CsvProperties.

Variable numericValue : jsstring -> float.
Variable numberToString : float -> jsstring.
Variable toFixed2 : float -> jsstring.

(** The head of every document of the CSV converter: title, counts, header
    line and separator line. *)
Lemma convertCsvToMarkdown_head (csvContent : jsstring) :
  let lines := splitOn cNL (trim csvContent) in
  let header := parseCSVLine (hd [] lines) in
  exists rest,
    convertCsvToMarkdown numericValue numberToString toFixed2 csvContent
    = js "# CSV Data" ++ NL ++ NL
      ++ js "**Rows:** " ++ natToString (length lines) ++ NL
      ++ js "**Columns:** " ++ natToString (length header) ++ NL ++ NL
      ++ tableLine (map cleanHeaderCell header)
      ++ tableLine (map (fun _ => js "---") header)
      ++ rest.
Proof.
  intros lines header. unfold convertCsvToMarkdown. fold lines.
  pose proof (splitOn_nonempty cNL (trim csvContent)) as Hl. fold lines in Hl.
  destruct lines as [|l0 ls] eqn:El; [simpl in Hl; lia|].
  cbn [length Nat.eqb map]. subst header. cbn [hd].
  pose proof (parseCSVLine_nonempty l0) as Hh.
  destruct (parseCSVLine l0) as [|h0 hs] eqn:Eh; [simpl in Hh; lia|].
  rewrite fold_left_append.
  rewrite (map_map cleanHeaderCell (fun _ => js "---")).
  rewrite length_map.
  destruct (detectNumericColumns numericValue _) as [|c0 cs].
  - eexists. repeat rewrite <- app_assoc. reflexivity.
  - rewrite fold_left_append. eexists. repeat rewrite <- app_assoc. reflexivity.
Qed.

(** C9.  Splitting any text at newlines gives at least one line, the line
    parser gives at least one cell for every line, and the CSV converter
    never returns the [# Empty CSV] document: whatever the input, the
    document starts with the [# CSV Data] title, the counts and a table
    header; for the empty input that header is the one cell [Column]. *)
Theorem convertCsvToMarkdown_never_empty :
  (forall text, 1 <= length (splitOn cNL text))
  /\ (forall line, 1 <= length (parseCSVLine line))
  /\ (forall csvContent,
         convertCsvToMarkdown numericValue numberToString toFixed2 csvContent
         <> js "# Empty CSV" ++ NL)
  /\ (forall csvContent,
         let lines := splitOn cNL (trim csvContent) in
         let header := parseCSVLine (hd [] lines) in
         exists rest,
           convertCsvToMarkdown numericValue numberToString toFixed2 csvContent
           = js "# CSV Data" ++ NL ++ NL
             ++ js "**Rows:** " ++ natToString (length lines) ++ NL
             ++ js "**Columns:** " ++ natToString (length header) ++ NL ++ NL
             ++ tableLine (map cleanHeaderCell header)
             ++ tableLine (map (fun _ => js "---") header)
             ++ rest)
  /\ convertCsvToMarkdown numericValue numberToString toFixed2 []
     = js "# CSV Data" ++ NL ++ NL ++ js "**Rows:** 1" ++ NL
       ++ js "**Columns:** 1" ++ NL ++ NL
       ++ js "| Column |" ++ NL ++ js "| --- |" ++ NL.
Proof.
  split; [| split; [| split; [| split]]].
  - intros text. apply splitOn_nonempty.
  - exact parseCSVLine_nonempty.
  - intros csvContent H.
    destruct (convertCsvToMarkdown_head csvContent) as [rest E].
    rewrite E in H.
    apply (f_equal (fun s => nth 2 s 0%N)) in H.
    vm_compute in H. discriminate H.
  - exact convertCsvToMarkdown_head.
  - vm_compute. reflexivity.
Qed.

End CsvProperties.

(** ** Numeric columns *)

(** The quotient of two counts up to ten reaches the literal [0.7] exactly
    when the first is at least seven tenths of the second. *)
Lemma ratio_table :
  forallb (fun total =>
             forallb (fun numeric =>
                        Bool.eqb (isNumericColumn (numeric, total))
                                 ((0 <? total) && (7 * total <=? 10 * numeric)))
                     (seq 0 (S total)))
          (seq 0 11) = true.
Proof. vm_compute. reflexivity. Qed.

Lemma isNumericColumn_ratio (numeric total : nat) :
  numeric <= total -> total <= 10 ->
  isNumericColumn (numeric, total) = ((0 <? total) && (7 * total <=? 10 * numeric)).
Proof.
  intros Hn Ht.
  pose proof ratio_table as T.
  rewrite forallb_forall in T.
  specialize (T total). rewrite in_seq in T.
  assert (Hin : 0 <= total < 0 + 11) by lia.
  specialize (T Hin). rewrite forallb_forall in T.
  specialize (T numeric). rewrite in_seq in T.
  assert (Hin' : 0 <= numeric < 0 + S total) by lia.
  specialize (T Hin'). now apply eqb_prop in T.
Qed.

Section NumericColumns.

Variable numericValue : jsstring -> float.

Lemma sampleStep_counts (colIndex : nat) (row : list jsstring) (numeric total : nat) :
  sampleStep numericValue colIndex (numeric, total) row
  = (numeric + (if hasValue colIndex row && parsesAsNumber colIndex row then 1 else 0),
     total + (if hasValue colIndex row then 1 else 0)).
Proof.
  unfold sampleStep, hasValue, parsesAsNumber, parseFloat.
  destruct (nth_error row colIndex) as [cell|]; [| cbn [andb]; f_equal; lia].
  destruct cell as [|c cell].
  - cbn. f_equal; lia.
  - cbn [isEmpty negb andb].
    destruct (trim (c :: cell)) eqn:E; cbn [isEmpty negb andb]; [f_equal; lia|].
    destruct (strDecimalPrefix _); cbn [option_map isSome]; f_equal; lia.
Qed.

Lemma sampleCounts_fold (colIndex : nat) (sample : list (list jsstring)) :
  forall numeric total,
    fold_left (sampleStep numericValue colIndex) sample (numeric, total)
    = (numeric + length (filter (parsesAsNumber colIndex)
                                (filter (hasValue colIndex) sample)),
       total + length (filter (hasValue colIndex) sample)).
Proof.
  induction sample as [|row sample IH]; intros numeric total.
  - simpl. f_equal; lia.
  - cbn [fold_left]. rewrite sampleStep_counts, IH. cbn [filter].
    destruct (hasValue colIndex row); cbn [andb filter].
    + destruct (parsesAsNumber colIndex row); cbn [length]; f_equal; lia.
    + f_equal; lia.
Qed.

Lemma filter_length_le {A} (p : A -> bool) (l : list A) :
  length (filter p l) <= length l.
Proof.
  induction l as [|x l IH]; simpl; [lia|].
  destruct (p x); simpl; lia.
Qed.

(** C5.  A column is flagged numeric exactly when there are at least two
    rows, the column is one of the header's, and, among the first ten data
    rows at most, the cells that are not blank are at least one and at least
    seventy per cent of them parse as a number.  So seven numeric values out
    of ten flag the column and six out of ten do not. *)
Theorem detectNumericColumns_rule :
  (forall rows colIndex,
      let sample := firstn 10 (tl rows) in
      let valued := filter (hasValue colIndex) sample in
      let numeric := filter (parsesAsNumber colIndex) valued in
      length sample <= 10
      /\ (In colIndex (detectNumericColumns numericValue rows)
          <-> 2 <= length rows
              /\ colIndex < length (hd [] rows)
              /\ 0 < length valued
              /\ 7 * length valued <= 10 * length numeric))
  /\ detectNumericColumns numericValue
       ([js "n"] :: repeat [js "1.5"] 7 ++ repeat [js "x"] 3) = [0]
  /\ detectNumericColumns numericValue
       ([js "n"] :: repeat [js "1.5"] 6 ++ repeat [js "x"] 4) = [].
Proof.
  split; [| split; vm_compute; reflexivity].
  intros rows colIndex sample valued numeric.
  assert (Hs : length sample <= 10).
  { subst sample. rewrite length_firstn. lia. }
  split; [exact Hs|].
  unfold detectNumericColumns.
  destruct (length rows <? 2) eqn:El.
  - apply Nat.ltb_lt in El. simpl. split; [tauto | lia].
  - apply Nat.ltb_ge in El.
    rewrite filter_In, in_seq.
    unfold sampleCounts, sampleRows.
    rewrite sampleCounts_fold. fold sample. fold valued. fold numeric.
    cbn [Nat.add].
    assert (Hv : length valued <= 10).
    { subst valued. pose proof (filter_length_le (hasValue colIndex) sample). lia. }
    assert (Hn : length numeric <= length valued).
    { subst numeric. apply filter_length_le. }
    rewrite isNumericColumn_ratio by assumption.
    rewrite andb_true_iff, Nat.ltb_lt, Nat.leb_le. lia.
Qed.

End NumericColumns.

(** ** The cleanup normalizer *)

(** C3.  A second pass of the cleanup is not always without effect: a
    heading that follows a line gets one more newline before it on every
    pass.  For [a], a newline and [# b] the first pass gives two newlines
    before the heading and the second pass three.  A run of five newlines
    between two words does become three, and stays three on a second pass. *)
Theorem cleanupMarkdownContent_second_pass :
  cleanupMarkdownContent (js "a" ++ NL ++ js "# b")
  = js "a" ++ NL ++ NL ++ js "# b" ++ NL
  /\ cleanupMarkdownContent (cleanupMarkdownContent (js "a" ++ NL ++ js "# b"))
     = js "a" ++ NL ++ NL ++ NL ++ js "# b" ++ NL
  /\ cleanupMarkdownContent (cleanupMarkdownContent (js "a" ++ NL ++ js "# b"))
     <> cleanupMarkdownContent (js "a" ++ NL ++ js "# b")
  /\ cleanupMarkdownContent (js "a" ++ NL ++ NL ++ NL ++ NL ++ NL ++ js "b")
     = js "a" ++ NL ++ NL ++ NL ++ js "b" ++ NL
  /\ cleanupMarkdownContent
       (cleanupMarkdownContent (js "a" ++ NL ++ NL ++ NL ++ NL ++ NL ++ js "b"))
     = js "a" ++ NL ++ NL ++ NL ++ js "b" ++ NL.
Proof.
  repeat split; try (vm_compute; reflexivity).
  vm_compute. discriminate.
Qed.

(** ** Word-processing paragraphs *)

(** C8.  The heading level of a paragraph is not always between 0 and 6:
    the digits of a style named Heading and a number are taken as they are.
    The style Heading7 gives level 7 and a line that starts with seven
    number signs, and Heading9 gives nine, while an outline level, however
    large, gives 6 at most. *)
Theorem getHeadingLevel_of_Heading7 :
  getHeadingLevel (styledParagraph (js "Heading7") (js "Deep")) = Some 7%Z
  /\ extractParagraphText (styledParagraph (js "Heading7") (js "Deep"))
     = js "####### Deep"
  /\ extractParagraphText (styledParagraph (js "Heading9") (js "Deep"))
     = js "######### Deep"
  /\ getHeadingLevel (outlinedParagraph (js "8") (js "Deep")) = Some 6%Z
  /\ extractParagraphText (outlinedParagraph (js "8") (js "Deep"))
     = js "###### Deep".
Proof. repeat split; vm_compute; reflexivity. Qed.

(** ** Header levels of plain text *)





















(** ** Tables of arrays of objects *)

Lemma str_eqb_sym (a b : jsstring) : str_eqb a b = str_eqb b a.
Proof.
  revert b; induction a as [|x a IH]; intros [|y b]; simpl; try reflexivity.
  now rewrite IH, N.eqb_sym.
Qed.

Lemma str_eqb_neq (a b : jsstring) : str_eqb a b = false <-> a <> b.
Proof.
  rewrite <- str_eqb_eq. destruct (str_eqb a b); split; congruence.
Qed.

Lemma filter_comm {A} (p q : A -> bool) (l : list A) :
  filter p (filter q l) = filter q (filter p l).
Proof.
  induction l as [|x l IH]; simpl; [reflexivity|].
  destruct (p x) eqn:P, (q x) eqn:Q; simpl; rewrite ?P, ?Q, IH; reflexivity.
Qed.

Lemma filter_true_on {A} (p : A -> bool) (l : list A) :
  (forall x, In x l -> p x = true) -> filter p l = l.
Proof.
  induction l as [|x l IH]; intros H; simpl; [reflexivity|].
  rewrite (H x (or_introl eq_refl)). f_equal. apply IH.
  intros y Hy. apply H. now right.
Qed.

Lemma firstSeen_filter (p : jsstring -> bool) (keys : list jsstring) :
  firstSeen (filter p keys) = filter p (firstSeen keys).
Proof.
  induction keys as [|k keys IH]; simpl; [reflexivity|].
  destruct (p k) eqn:P; simpl.
  - rewrite IH. f_equal. apply filter_comm.
  - rewrite IH, filter_comm. symmetry. apply filter_true_on.
    intros x Hx. apply filter_In in Hx as [_ Hx].
    apply negb_true_iff, str_eqb_neq. intros ->. congruence.
Qed.

(** Adding keys one by one to an insertion-ordered set appends the new ones
    in the order of their first occurrence. *)
Lemma fold_setAdd (keys : list jsstring) :
  forall allKeys,
    fold_left setAdd keys allKeys
    = allKeys
      ++ firstSeen (filter (fun k => negb (existsb (str_eqb k) allKeys)) keys).
Proof.
  induction keys as [|k keys IH]; intros allKeys; simpl.
  - now rewrite app_nil_r.
  - unfold setAdd at 2. destruct (existsb (str_eqb k) allKeys) eqn:E; simpl.
    + apply IH.
    + rewrite IH, <- app_assoc. simpl. do 2 f_equal.
      rewrite <- firstSeen_filter. f_equal.
      rewrite filter_comm.
      assert (Hf : forall l,
                 filter (fun k0 => negb (existsb (str_eqb k0) (allKeys ++ [k]))) l
                 = filter (fun k' => negb (str_eqb k k'))
                          (filter (fun k0 => negb (existsb (str_eqb k0) allKeys)) l)).
      { induction l as [|x l IHl]; simpl; [reflexivity|].
        rewrite existsb_app. simpl. rewrite orb_false_r, negb_orb.
        rewrite (str_eqb_sym x k).
        destruct (existsb (str_eqb x) allKeys); simpl.
        - apply IHl.
        - destruct (str_eqb k x); simpl; now rewrite IHl. }
      rewrite Hf. apply filter_comm.
Qed.

Lemma fold_left_flat_map {A B C} (f : A -> B -> A) (g : C -> list B) (l : list C) :
  forall init,
    fold_left (fun acc x => fold_left f (g x) acc) l init
    = fold_left f (flat_map g l) init.
Proof.
  induction l as [|x l IH]; intros init; simpl; [reflexivity|].
  now rewrite fold_left_app, IH.
Qed.


(** The columns of the table: the keys of all elements, each once, in the
    order of their first occurrence. *)
Lemma collectKeys_firstSeen (array : list JSValue) :
  collectKeys array = firstSeen (flat_map objectKeys array).
Proof.
  unfold collectKeys.
  transitivity (fold_left (fun allKeys item => fold_left setAdd (objectKeys item) allKeys)
                          array []).
  - generalize (@nil jsstring) as init.
    induction array as [|item array IH]; intros init; simpl; [reflexivity|].
    destruct item; simpl; apply IH.
  - rewrite fold_left_flat_map, fold_setAdd. simpl.
    f_equal. apply filter_true_on. reflexivity.
Qed.


Lemma firstSeen_In (key : jsstring) (keys : list jsstring) :
  In key (firstSeen keys) <-> In key keys.
Proof.
  induction keys as [|k keys IH]; [reflexivity|].
  cbn [firstSeen In]. rewrite filter_In, IH.
  split; [tauto|]. intros [-> | H]; [now left|].
  destruct (str_eqb k key) eqn:E.
  - left. now apply str_eqb_eq.
  - right. split; [exact H | reflexivity].
Qed.


Section ArrayTables.

Variable numberToString : float -> jsstring.
Variable inheritedCell : JSValue -> jsstring -> option jsstring.


End ArrayTables.


(** ** The shape of cleaned content *)

Lemma isTrimmed_no_final_newline (s : jsstring) :
  isTrimmed s = true -> s <> [] -> endsWith NL s = false.
Proof.
  intros Ht Hne. destruct s as [|c t]; [now elim Hne|].
  unfold isTrimmed in Ht. apply andb_prop in Ht as [_ Hl].
  apply negb_true_iff in Hl.
  destruct (exists_last (l := c :: t)) as [u [d Hu]]; [discriminate|].
  rewrite Hu in *. rewrite last_last in Hl.
  unfold endsWith. rewrite rev_app_distr. cbn [rev app NL startsWith].
  rewrite andb_true_r. apply N.eqb_neq. intros <-. discriminate Hl.
Qed.

Lemma cleanupMarkdownContent_shape (content : jsstring) :
  cleanupMarkdownContent content = []
  \/ exists body,
       body <> [] /\ isTrimmed body = true
       /\ cleanupMarkdownContent content = body ++ NL.
Proof.
  unfold cleanupMarkdownContent.
  set (cleaned := trim _).
  assert (Ht : isTrimmed cleaned = true) by apply trim_isTrimmed.
  destruct cleaned as [|c t] eqn:E; [now left|].
  right. exists (c :: t).
  rewrite (isTrimmed_no_final_newline (c :: t) Ht) by discriminate.
  repeat split; [discriminate | exact Ht].
Qed.

Lemma documentToMarkdown_trimmed (xmlDoc : Document) :
  documentToMarkdown xmlDoc <> [] /\ isTrimmed (documentToMarkdown xmlDoc) = true.
Proof.
  unfold documentToMarkdown. set (markdown := fold_left _ _ _).
  destruct (trim markdown) eqn:E; cbn [isEmpty].
  - split; [discriminate | reflexivity].
  - rewrite <- E. split; [rewrite E; discriminate | apply trim_isTrimmed].
Qed.

Lemma startsWith_map (f : char -> char) (p s : jsstring) :
  startsWith p s = true -> startsWith (map f p) (map f s) = true.
Proof.
  revert s; induction p as [|x p IH]; intros [|y s]; simpl; try discriminate; auto.
  intros H. apply andb_prop in H as [Hx Hp].
  apply N.eqb_eq in Hx. subst. now rewrite N.eqb_refl, IH.
Qed.

Lemma includes_map (f : char -> char) (p s : jsstring) :
  includes p s = true -> includes (map f p) (map f s) = true.
Proof.
  induction s as [|y s IH]; intros H.
  - destruct p; [reflexivity | discriminate H].
  - cbn [includes] in H. apply orb_prop in H as [H|H].
    + cbn [includes map]. apply (startsWith_map f) in H. cbn [map] in H.
      now rewrite H.
    + cbn [includes map]. rewrite (IH H). apply orb_true_r.
Qed.

(** ** The batch *)

Section BatchProperties.

Variable toUpperCase : jsstring -> jsstring.
Variable numericValue : jsstring -> float.
Variable numberToString : float -> jsstring.
Variable toFixed2 : float -> jsstring.
Variable inheritedCell : JSValue -> jsstring -> option jsstring.
Variable JSON_parse : jsstring -> JSValue + jsstring.
Variable turndown : jsstring -> Exc jsstring.
Variable readAsText : File -> ReaderEvent.
Variable unzipDocumentXml : File -> Exc (option jsstring).
Variable parseXml : jsstring -> Document.

Local Abbreviation convertFile' :=
  (convertFile toUpperCase numericValue numberToString toFixed2 inheritedCell JSON_parse
               turndown readAsText unzipDocumentXml parseXml).
Local Abbreviation convertOrReport' :=
  (convertOrReport toUpperCase numericValue numberToString toFixed2 inheritedCell JSON_parse
                   turndown readAsText unzipDocumentXml parseXml).
Local Abbreviation convertLoop' :=
  (convertLoop toUpperCase numericValue numberToString toFixed2 inheritedCell JSON_parse
               turndown readAsText unzipDocumentXml parseXml).
Local Abbreviation convertFilesToMarkdown' :=
  (convertFilesToMarkdown toUpperCase numericValue numberToString toFixed2
                          inheritedCell
                          JSON_parse turndown readAsText unzipDocumentXml parseXml).
Local Abbreviation processContent' :=
  (processContent toUpperCase numericValue numberToString toFixed2 inheritedCell JSON_parse
                  turndown).

(** With a callback that returns, the loop visits every file, pushes one
    document for each, and calls the callback with the indices in order. *)
Lemma convertLoop_returns (onProgress : Callback) (files : list File) :
  (forall callback n, onProgress = Some callback -> callback n = None) ->
  forall i markdownFiles calls,
    convertLoop' onProgress i files markdownFiles calls
    = (calls ++ match onProgress with
                | Some _ => seq i (S (length files))
                | None => []
                end,
       inl (markdownFiles ++ map convertOrReport' files)).
Proof.
  intros Hcb. destruct onProgress as [callback|].
  - assert (Hc : forall n, callback n = None) by (intros n; now apply Hcb).
    clear Hcb.
    induction files as [|file files IH]; intros i markdownFiles calls;
      cbn [convertLoop notify]; rewrite Hc.
    + cbn [length seq map]. now rewrite app_nil_r.
    + rewrite IH. cbn [length seq map]. now rewrite <- !app_assoc.
  - clear Hcb.
    induction files as [|file files IH]; intros i markdownFiles calls;
      cbn [convertLoop notify].
    + cbn [map]. now rewrite !app_nil_r.
    + rewrite IH. cbn [map]. now rewrite <- !app_assoc.
Qed.

(** C1.  When the progress callback is left out or returns from every call,
    the batch returns, and it returns one document per file, in the order
    of the files: the converted document of a file whose conversion returns,
    and for a file whose conversion throws the document named [ERROR_], the
    name of the file and [.md], whose content has the name of the file and,
    when an Error was thrown, the message of that Error, and the words
    Unknown error when something else was thrown. *)
Theorem convertFilesToMarkdown_one_document_per_file
        (files : list File) (onProgress : Callback) :
  (forall callback n, onProgress = Some callback -> callback n = None) ->
  exists documents,
    snd (convertFilesToMarkdown' files onProgress) = inl documents
    /\ length documents = length files
    /\ Forall2
         (fun file document =>
            match convertFile' file with
            | inl converted => document = converted
            | inr (ErrorObject message) =>
                md_name document = js "ERROR_" ++ name file ++ js ".md"
                /\ md_content document = statedErrorContent (name file) message
                /\ md_originalFile document = Some (name file)
            | inr OtherValue =>
                md_name document = js "ERROR_" ++ name file ++ js ".md"
                /\ md_content document
                   = statedErrorContent (name file) (js "Unknown error")
                /\ md_originalFile document = Some (name file)
            end)
         files documents.
Proof.
  intros Hcb. exists (map convertOrReport' files).
  unfold convertFilesToMarkdown. rewrite (convertLoop_returns onProgress files Hcb).
  cbn [snd app]. split; [reflexivity | split; [apply length_map|]].
  induction files as [|file files IH]; cbn [map]; constructor; [| exact IH].
  unfold convertOrReport. destruct (convertFile' file) as [converted|error];
    [reflexivity|].
  destruct error as [message|]; repeat split.
Qed.

Lemma batch_condition_lower (file : File) :
  endsWith (js ".docx") (toLowerCase (name file))
  || includes (js "wordprocessingml") (type file) = true ->
  looksLikeDocx (toLowerCase (name file)) (toLowerCase (type file)) = true.
Proof.
  unfold looksLikeDocx. intros H. apply orb_prop in H as [H|H].
  - now rewrite H.
  - apply (includes_map lowerChar) in H. unfold toLowerCase.
    change (map lowerChar (js "wordprocessingml")) with (js "wordprocessingml") in H.
    rewrite H. apply orb_true_r.
Qed.

(** C2, amended.  The document of a file whose conversion returns is named
    after the file, its extension replaced by [.md].  For an input that is
    not taken for DOCX its content is what the cleanup makes of the
    converter's result, which is either empty or a text without white space
    at either end followed by one newline.  For a DOCX input the content is
    the text extracted from the document as it is: not empty, without white
    space at either end, and not passed through the cleanup. *)
Theorem successful_document_content (file : File) (document : MarkdownFile) :
  convertFile' file = inl document ->
  md_name document = removeExtension (name file) ++ js ".md"
  /\ if endsWith (js ".docx") (toLowerCase (name file))
        || includes (js "wordprocessingml") (type file)
     then md_content document <> []
          /\ isTrimmed (md_content document) = true
          /\ exists xml,
               unzipDocumentXml file = inl (Some xml)
               /\ md_content document = documentToMarkdown (parseXml xml)
     else exists content processed,
            readAsText file = Load (Some content)
            /\ processContent' content file = inl processed
            /\ md_content document = cleanupMarkdownContent processed
            /\ (md_content document = []
                \/ exists body,
                     body <> [] /\ isTrimmed body = true
                     /\ md_content document = body ++ NL).
Proof.
  unfold convertFile. intros H.
  destruct (endsWith (js ".docx") (toLowerCase (name file))
            || includes (js "wordprocessingml") (type file)) eqn:Ecase.
  - unfold readFileContent in H.
    rewrite (batch_condition_lower file Ecase) in H.
    unfold readDocxFile, tryCatch, bind in H.
    destruct (unzipDocumentXml file) as [[[|x xml]|]|thrown] eqn:Ez;
      try discriminate H.
    cbn in H. injection H as <-. cbn [md_name md_content].
    split; [reflexivity|].
    destruct (documentToMarkdown_trimmed (parseXml (x :: xml))) as [Hne Ht].
    split; [exact Hne | split; [exact Ht|]].
    exists (x :: xml). split; reflexivity.
  - unfold readFileContent in H.
    destruct (looksLikeDocx (toLowerCase (name file)) (toLowerCase (type file)))
      eqn:Elow.
    + exfalso. destruct (readDocxFile unzipDocumentXml parseXml file) as [content|];
        [| discriminate H].
      cbn [bind] in H. unfold convertContentToMarkdown, processContent in H.
      rewrite Elow in H. discriminate H.
    + destruct (readAsText file) as [[content|]|] eqn:Er; try discriminate H.
      cbn [bind ret] in H. unfold convertContentToMarkdown in H.
      destruct (processContent' content file) as [processed|] eqn:Ep;
        [| discriminate H].
      cbn in H. injection H as <-. cbn [md_name md_content].
      split; [reflexivity|].
      exists content, processed. repeat split; try assumption.
      apply cleanupMarkdownContent_shape.
Qed.

End BatchProperties.

(** C2, as stated, fails twice.  The document of a DOCX file with the one
    paragraph Hello has the content Hello: it has no newline at its end, and
    the cleanup gives it for no text.  And the document of an empty text file
    has the empty content, cleaned, which has no newline at its end either. *)
Lemma document_content_not_as_stated :
  (exists document,
      exampleConvertFile helloDocx = inl document
      /\ md_content document = js "Hello"
      /\ endsWith NL (md_content document) = false
      /\ forall text, cleanupMarkdownContent text <> md_content document)
  /\ (exists document,
         exampleConvertFile emptyText = inl document
         /\ md_content document = cleanupMarkdownContent []
         /\ endsWith NL (md_content document) = false).
Proof.
  split.
  - eexists. split; [vm_compute; reflexivity|]. cbn [md_content].
    split; [reflexivity | split; [vm_compute; reflexivity|]].
    intros text H.
    destruct (cleanupMarkdownContent_shape text) as [E | [body [_ [_ E]]]];
      rewrite E in H.
    + discriminate H.
    + apply (f_equal (@rev char)) in H. rewrite rev_app_distr in H.
      vm_compute in H. discriminate H.
  - eexists. split; [vm_compute; reflexivity|]. cbn [md_content].
    split; vm_compute; reflexivity.
Qed.

Lemma convertFilesToMarkdown_one_document_per_file_witness :
  exists documents,
    snd (exampleConvertFiles [notesText; brokenDocx] (Some (fun _ => None)))
    = inl documents
    /\ map md_name documents = [js "notes.md"; js "ERROR_broken.docx.md"]
    /\ map md_content documents
       = [js "Some notes" ++ NL;
          statedErrorContent (js "broken.docx")
                             (js "Failed to read DOCX file: Corrupted zip")].
Proof.
  destruct (convertFilesToMarkdown_one_document_per_file
              asciiUpperCase exampleNumericValue exampleNumberToString
              exampleNumberToString nothingInherited exampleJSON_parse
              exampleTurndown exampleReadAsText exampleUnzip exampleParseXml
              [notesText; brokenDocx] (Some (fun _ => None)))
    as [documents [Hr [_ Hd]]].
  - intros callback n H. injection H as <-. reflexivity.
  - exists documents. split; [exact Hr|].
    inversion Hd as [|f1 d1 fs1 ds1 H1 Hd1]; subst.
    inversion Hd1 as [|f2 d2 fs2 ds2 H2 Hd2]; subst.
    inversion Hd2; subst.
    vm_compute in H1. subst d1.
    destruct d2 as [name2 content2 original2].
    vm_compute in H2. destruct H2 as [Hn [Hc _]]. subst name2 content2.
    split; vm_compute; reflexivity.
Defined.

Lemma successful_document_content_witness :
  md_name {| md_name := js "notes.md"; md_content := js "Some notes" ++ NL;
             md_originalFile := Some (js "notes.txt") |}
  = removeExtension (name notesText) ++ js ".md".
Proof.
  apply (successful_document_content
           asciiUpperCase exampleNumericValue exampleNumberToString exampleNumberToString
           nothingInherited exampleJSON_parse exampleTurndown
           exampleReadAsText exampleUnzip exampleParseXml notesText).
  vm_compute. reflexivity.
Defined.

(* ================================================================== *)
(** * Further properties *)
(* ================================================================== *)

(** ** Replacements that look at one code unit *)

(** A matcher that decides on the first code unit alone and consumes it. *)
Lemma replaceAll_from_pointwise (m : matcher) (f : char -> option jsstring) :
  (forall prev, m prev [] = None) ->
  (forall prev c rest,
      m prev (c :: rest) = match f c with Some r => Some (1, r) | None => None end) ->
  forall s prev,
    replaceAll_from m 0 prev s
    = flat_map (fun c => match f c with Some r => r | None => [c] end) s.
Proof.
  intros Hnil Hcons. induction s as [|c rest IH]; intros prev.
  - cbn [replaceAll_from flat_map]. now rewrite Hnil.
  - cbn [replaceAll_from flat_map]. rewrite Hcons.
    destruct (f c) as [r|]; now rewrite IH.
Qed.

Lemma escapePipes_flat_map (s : jsstring) :
  escapePipes s
  = flat_map (fun c => if N.eqb c cPIPE then [cBSL; cPIPE] else [c]) s.
Proof.
  unfold escapePipes, replaceAll.
  rewrite (replaceAll_from_pointwise m_pipe
             (fun c => if N.eqb c cPIPE then Some [cBSL; cPIPE] else None)).
  - apply flat_map_ext. intros c. now destruct (N.eqb c cPIPE).
  - reflexivity.
  - intros prev c rest. cbn [m_pipe]. now destruct (N.eqb c cPIPE).
Qed.

Lemma escapePipes_escaped (s : jsstring) (prev : option char) :
  pipesEscaped prev (escapePipes s) = true.
Proof.
  rewrite escapePipes_flat_map. revert prev.
  induction s as [|c rest IH]; intros prev; [reflexivity|].
  cbn [flat_map]. destruct (N.eqb c cPIPE) eqn:E.
  - cbn [app pipesEscaped]. rewrite N.eqb_refl.
    change (N.eqb cBSL cPIPE) with false. cbn [andb]. apply IH.
  - cbn [app pipesEscaped]. rewrite E. cbn [andb]. apply IH.
Qed.

(** The escaped text never starts with a pipe. *)
Lemma escapePipes_head (s : jsstring) :
  match escapePipes s with
  | c :: _ => N.eqb c cPIPE = false
  | [] => True
  end.
Proof.
  rewrite escapePipes_flat_map. destruct s as [|c rest]; [exact I|].
  cbn [flat_map]. destruct (N.eqb c cPIPE) eqn:E; cbn [app]; [reflexivity | exact E].
Qed.

(** X1.  Escaping the pipes of a cell puts a backslash before every pipe,
    and reading a backslash and a pipe as a pipe gives the cell back. *)
Theorem escapePipes_round_trip (cell : jsstring) :
  pipesEscaped None (escapePipes cell) = true
  /\ unescapePipes (escapePipes cell) = cell.
Proof.
  split; [apply escapePipes_escaped|].
  induction cell as [|c rest IH]; [reflexivity|].
  pose proof (escapePipes_head rest) as Hh.
  rewrite escapePipes_flat_map in *. cbn [flat_map].
  destruct (N.eqb c cPIPE) eqn:E.
  - apply N.eqb_eq in E. subst c. cbn [app unescapePipes].
    rewrite !N.eqb_refl. cbn [andb]. now rewrite IH.
  - cbn [app unescapePipes].
    remember (flat_map (fun c0 => if N.eqb c0 cPIPE then [cBSL; cPIPE] else [c0])
                       rest) as t eqn:Et.
    destruct t as [|b rest'].
    + cbn [unescapePipes] in IH. now rewrite <- IH.
    + rewrite Hh, andb_false_r. now rewrite IH.
Qed.

(** ** Replacements in general *)

(** Passing over [k] code units still to skip. *)
Lemma replaceAll_from_skip (m : matcher) :
  forall k s prev,
    k <= length s ->
    exists prev', replaceAll_from m k prev s = replaceAll_from m 0 prev' (skipn k s).
Proof.
  induction k as [|k IH]; intros s prev Hk.
  - exists prev. reflexivity.
  - destruct s as [|c rest]; [simpl in Hk; lia|].
    cbn [replaceAll_from skipn]. apply IH. simpl in Hk. lia.
Qed.

(** A replacement that puts back what it matched changes nothing. *)
Lemma replaceAll_from_same (m : matcher) :
  (forall prev s n r, m prev s = Some (n, r) -> r = firstn n s /\ n <= length s) ->
  forall bound s prev, length s <= bound -> replaceAll_from m 0 prev s = s.
Proof.
  intros Hm. induction bound as [|bound IH]; intros s prev Hlen.
  - destruct s; [| simpl in Hlen; lia].
    cbn [replaceAll_from]. destruct (m prev []) as [[n r]|] eqn:E; [| reflexivity].
    destruct (Hm _ _ _ _ E) as [-> _]. now destruct n.
  - destruct s as [|c rest].
    + cbn [replaceAll_from]. destruct (m prev []) as [[n r]|] eqn:E; [| reflexivity].
      destruct (Hm _ _ _ _ E) as [-> _]. now destruct n.
    + simpl in Hlen. cbn [replaceAll_from].
      destruct (m prev (c :: rest)) as [[[|k] r]|] eqn:E.
      * destruct (Hm _ _ _ _ E) as [-> _]. cbn [firstn app].
        f_equal. apply IH. lia.
      * destruct (Hm _ _ _ _ E) as [-> Hn]. simpl in Hn.
        destruct (replaceAll_from_skip m k rest (Some c)) as [prev' ->]; [lia|].
        rewrite IH; [| rewrite length_skipn; lia].
        cbn [firstn app]. f_equal. apply firstn_skipn.
      * f_equal. apply IH. lia.
Qed.

Lemma takeWhile_skipn (p : char -> bool) (s : jsstring) :
  s = takeWhile p s ++ skipn (length (takeWhile p s)) s.
Proof.
  induction s as [|c rest IH]; [reflexivity|].
  cbn [takeWhile]. destruct (p c); cbn [length skipn app]; [now f_equal | reflexivity].
Qed.

Lemma m_tag_same (prev : option char) (s : jsstring) (n : nat) (r : jsstring) :
  m_tag prev s = Some (n, r) -> r = firstn n s /\ n <= length s.
Proof.
  unfold m_tag. destruct s as [|c rest]; [discriminate|].
  destruct (N.eqb c 60) eqn:Ec; [| discriminate].
  apply N.eqb_eq in Ec. subst c.
  set (tagContent := takeWhile (fun d => negb (N.eqb d 62)) rest).
  pose proof (takeWhile_skipn (fun d => negb (N.eqb d 62)) rest) as Hsplit.
  fold tagContent in Hsplit.
  destruct tagContent as [|t0 ts] eqn:Et; [discriminate|].
  destruct (skipn (length (t0 :: ts)) rest) as [|x after] eqn:Es; [discriminate|].
  intros H. injection H as <- <-.
  assert (Hx : x = 62%N).
  { assert (Hp : negb (N.eqb x 62) = false).
    { clear Hsplit. subst tagContent. revert Es Et. generalize (t0 :: ts) as l.
      intros l. revert l. induction rest as [|d rest IHr]; intros l Es Et.
      - cbn in Et. subst l. discriminate Es.
      - cbn [takeWhile] in Et. destruct (negb (N.eqb d 62)) eqn:Ed.
        + subst l. cbn [length skipn] in Es. eapply IHr; [exact Es | reflexivity].
        + subst l. cbn in Es. injection Es as -> _. exact Ed. }
    apply negb_false_iff, N.eqb_eq in Hp. exact Hp. }
  subst x. split.
  - rewrite Hsplit.
    replace (S (length ts + 2)) with (S (S (length ts + 1))) by lia.
    cbn [firstn app].
    rewrite firstn_app, firstn_all2 by lia.
    replace (length ts + 1 - length ts) with 1 by lia. cbn [firstn js].
    destruct t0 as [|q]; [reflexivity|].
    destruct (Pos.eqb 47 q) eqn:Eq; [| reflexivity].
    apply Pos.eqb_eq in Eq. subst q. reflexivity.
  - rewrite Hsplit. cbn [length]. rewrite length_app. cbn [length]. lia.
Qed.

Section XmlProperties.

Variable turndown : jsstring -> Exc jsstring.

(** X2.  The rewriting of the tags in [convertXmlToMarkdown] gives every tag
    back as it was, so Turndown is given the XML text itself; the result is
    the title and what Turndown returns, or, when Turndown throws, the title
    and the XML text in a code fence. *)
Theorem convertXmlToMarkdown_passes_text (xmlContent : jsstring) :
  replaceAll m_tag xmlContent = xmlContent
  /\ convertXmlToMarkdown turndown xmlContent
     = match turndown xmlContent with
       | inl converted => js "# XML Content" ++ NL ++ NL ++ converted
       | inr _ =>
           js "# XML Content" ++ NL ++ NL ++ js "```xml" ++ NL ++ xmlContent ++ NL
           ++ js "```" ++ NL
       end.
Proof.
  assert (E : replaceAll m_tag xmlContent = xmlContent).
  { unfold replaceAll.
    apply (replaceAll_from_same m_tag m_tag_same (length xmlContent)). lia. }
  split; [exact E|].
  unfold convertXmlToMarkdown. rewrite E.
  destruct (turndown xmlContent); reflexivity.
Qed.

End XmlProperties.

(** ** Line endings *)

Lemma replaceAll_m_cr (s : jsstring) :
  replaceAll m_cr s = map (fun c => if N.eqb c cCR then cNL else c) s.
Proof.
  unfold replaceAll.
  rewrite (replaceAll_from_pointwise m_cr
             (fun c => if N.eqb c cCR then Some NL else None)).
  - induction s as [|c rest IH]; [reflexivity|].
    cbn [flat_map map]. rewrite IH. now destruct (N.eqb c cCR).
  - reflexivity.
  - intros prev c rest. cbn [m_cr]. now destruct (N.eqb c cCR).
Qed.

Lemma replaceAll_m_crlf_without_cr (s : jsstring) :
  existsb (N.eqb cCR) s = false -> replaceAll m_crlf s = s.
Proof.
  unfold replaceAll. generalize (@None char) as prev.
  induction s as [|c rest IH]; intros prev H; [reflexivity|].
  cbn [existsb] in H. apply orb_false_elim in H as [Hc Hrest].
  rewrite N.eqb_sym in Hc.
  cbn [replaceAll_from m_crlf].
  destruct rest as [|b rest']; [now rewrite IH|].
  rewrite Hc. cbn [andb]. now rewrite IH.
Qed.

(** X3.  After the two replacements of line endings at the start of
    [convertPlainTextToMarkdown] the text has no carriage return left, and
    doing them once more changes nothing; a carriage return with its newline
    becomes one newline, not two. *)
Theorem line_endings_normalized (text : jsstring) :
  existsb (N.eqb cCR) (replaceAll m_cr (replaceAll m_crlf text)) = false
  /\ replaceAll m_cr (replaceAll m_crlf (replaceAll m_cr (replaceAll m_crlf text)))
     = replaceAll m_cr (replaceAll m_crlf text)
  /\ replaceAll m_cr (replaceAll m_crlf (js "a" ++ [cCR; cNL] ++ js "b" ++ [cCR] ++ js "c"))
     = js "a" ++ NL ++ js "b" ++ NL ++ js "c".
Proof.
  assert (H : forall s, existsb (N.eqb cCR) (replaceAll m_cr s) = false).
  { intros s. rewrite replaceAll_m_cr.
    induction s as [|c rest IH]; [reflexivity|].
    cbn [map existsb]. rewrite IH, orb_false_r.
    destruct (N.eqb c cCR) eqn:E; [reflexivity | now rewrite N.eqb_sym]. }
  split; [apply H | split; [| vm_compute; reflexivity]].
  set (normalized := replaceAll m_cr (replaceAll m_crlf text)).
  assert (Hn : existsb (N.eqb cCR) normalized = false) by apply H.
  rewrite (replaceAll_m_crlf_without_cr normalized Hn).
  rewrite replaceAll_m_cr.
  clear -Hn. induction normalized as [|c rest IH]; [reflexivity|].
  cbn [existsb] in Hn. apply orb_false_elim in Hn as [Hc Hrest].
  cbn [map]. rewrite N.eqb_sym in Hc. rewrite Hc. f_equal. now apply IH.
Qed.

(** ** More on the CSV parser and the table *)

Lemma parseCSVLine_loop_unquoted (line : jsstring) :
  existsb (N.eqb cDQ) line = false ->
  forall current result,
    parseCSVLine_loop line current false result
    = result ++ map trim (match splitOn cCOMMA line with
                          | field :: fields => (current ++ field) :: fields
                          | [] => [current]
                          end).
Proof.
  induction line as [|c rest IH]; intros Hq current result.
  - cbn. now rewrite app_nil_r.
  - cbn [existsb] in Hq. apply orb_false_elim in Hq as [Hc Hrest].
    rewrite N.eqb_sym in Hc.
    cbn [parseCSVLine_loop splitOn]. rewrite Hc. cbn [negb]. rewrite andb_true_r.
    pose proof (splitOn_nonempty cCOMMA rest) as Hne.
    destruct (N.eqb c cCOMMA).
    + rewrite (IH Hrest). destruct (splitOn cCOMMA rest) as [|f fs];
        [simpl in Hne; lia|].
      cbn [map app]. now rewrite <- app_assoc, app_nil_r.
    + rewrite (IH Hrest). destruct (splitOn cCOMMA rest) as [|f fs];
        [simpl in Hne; lia|].
      cbn [map]. now rewrite <- app_assoc.
Qed.

(** X4.  A line without a quote is cut at its commas, and every piece is
    trimmed. *)
Theorem parseCSVLine_without_quotes (line : jsstring) :
  existsb (N.eqb cDQ) line = false ->
  parseCSVLine line = map trim (splitOn cCOMMA line).
Proof.
  intros Hq. unfold parseCSVLine.
  rewrite (parseCSVLine_loop_unquoted line Hq).
  pose proof (splitOn_nonempty cCOMMA line) as Hne.
  destruct (splitOn cCOMMA line); [simpl in Hne; lia | reflexivity].
Qed.

Lemma parseCSVLine_without_quotes_witness :
  parseCSVLine (js "a, b ,c") = map trim (splitOn cCOMMA (js "a, b ,c")).
Proof.
  apply parseCSVLine_without_quotes. vm_compute. reflexivity.
Defined.

(** The line of one data row: as many cells as asked for, a row that is too
    short filled up with empty cells, a row that is too long cut. *)
Lemma dataRowLine_width (width : nat) (cell : jsstring) (row : list jsstring) :
  exists cells,
    dataRowLine width (cell :: row) = tableLine cells
    /\ length cells = width
    /\ forall i, i < width ->
                 nth i cells [] = escapePipes (trim (nth i (cell :: row) [])).
Proof.
  unfold dataRowLine, padRow.
  set (padded := (cell :: row) ++ repeat [] (width - length (cell :: row))).
  exists (map (fun c => escapePipes (trim c)) (firstn width padded)).
  assert (Hlen : width <= length padded).
  { subst padded. rewrite length_app, repeat_length. lia. }
  split; [reflexivity | split].
  - rewrite length_map, length_firstn. lia.
  - intros i Hi.
    change (@nil char) with ((fun c => escapePipes (trim c)) []) at 1.
    rewrite map_nth. f_equal. f_equal.
    rewrite nth_firstn. apply Nat.ltb_lt in Hi. rewrite Hi.
    subst padded.
    destruct (Nat.lt_ge_cases i (length (cell :: row))) as [Hin|Hout].
    + now rewrite app_nth1.
    + rewrite app_nth2 by exact Hout.
      rewrite (nth_overflow (cell :: row)) by exact Hout.
      apply nth_repeat.
Qed.

Lemma nth_trimmed (cells : list jsstring) (i : nat) :
  Forall (fun cell => trim cell = cell) cells ->
  trim (nth i cells []) = nth i cells [].
Proof.
  intros H. revert i. induction H as [|c l Hc Hl IH]; intros [|i]; cbn [nth];
    try reflexivity; [exact Hc | apply IH].
Qed.

Lemma startsWith_app (p s : jsstring) : startsWith p (p ++ s) = true.
Proof.
  induction p as [|c p IH]; [reflexivity|].
  cbn [app startsWith]. now rewrite N.eqb_refl, IH.
Qed.

(** The lines of the data rows, for the lines of the text after the first. *)
Lemma dataRowLines (width : nat) (lines : list jsstring) :
  exists rows,
    flat_map (dataRowLine width) (map parseCSVLine lines) = flat_map tableLine rows
    /\ Forall2 (fun line cells =>
                  length cells = width
                  /\ forall i, i < width ->
                               nth i cells []
                               = escapePipes (nth i (parseCSVLine line) []))
               lines rows.
Proof.
  induction lines as [|line lines [rows [E F]]].
  - exists []. split; [reflexivity | constructor].
  - pose proof (parseCSVLine_nonempty line) as Hne.
    pose proof (parseCSVLine_trimmed line) as Ht.
    destruct (parseCSVLine line) as [|cell row] eqn:Ep; [simpl in Hne; lia|].
    destruct (dataRowLine_width width cell row) as [cells [Ec [Hl Hn]]].
    exists (cells :: rows). cbn [map flat_map]. rewrite Ep, Ec, E.
    split; [reflexivity|]. constructor; [| exact F].
    cbn beta. split; [exact Hl|]. intros i Hi.
    rewrite Ep. etransitivity; [exact (Hn i Hi)|].
    now rewrite (nth_trimmed (cell :: row) i Ht).
Qed.

Section CsvRows.

Variable numericValue : jsstring -> float.
Variable numberToString : float -> jsstring.
Variable toFixed2 : float -> jsstring.

(** X5.  The table of the CSV converter has, after its header line and its
    separator line, one line for every line of the text after the first,
    and each of these has exactly as many cells as the header: cell [i] is
    cell [i] of the parsed line with its pipes escaped, empty when the line
    has no such cell, and the cells of the line beyond the header are left
    out.  What follows the table is nothing or the data summary.  So the
    text of the header [a, b] and the two lines [x] and [y|z,w,v] gives a
    table of two columns with the rows [x] and nothing, and [y\|z] and
    [w]. *)
Theorem convertCsvToMarkdown_rows :
  (forall csvContent : jsstring,
      let lines := splitOn cNL (trim csvContent) in
      let header := parseCSVLine (hd [] lines) in
      exists rows summary,
        convertCsvToMarkdown numericValue numberToString toFixed2 csvContent
        = js "# CSV Data" ++ NL ++ NL
          ++ js "**Rows:** " ++ natToString (length lines) ++ NL
          ++ js "**Columns:** " ++ natToString (length header) ++ NL ++ NL
          ++ tableLine (map cleanHeaderCell header)
          ++ tableLine (map (fun _ => js "---") header)
          ++ flat_map tableLine rows
          ++ summary
        /\ Forall2 (fun line cells =>
                      length cells = length header
                      /\ forall i, i < length header ->
                                   nth i cells []
                                   = escapePipes (nth i (parseCSVLine line) []))
                   (tl lines) rows
        /\ (summary = []
            \/ startsWith (NL ++ js "## Data Summary" ++ NL ++ NL) summary = true))
  /\ convertCsvToMarkdown numericValue numberToString toFixed2
       (js "a, b" ++ NL ++ js "x" ++ NL ++ js "y|z,w,v")
     = js "# CSV Data" ++ NL ++ NL
       ++ js "**Rows:** 3" ++ NL
       ++ js "**Columns:** 2" ++ NL ++ NL
       ++ js "| a | b |" ++ NL
       ++ js "| --- | --- |" ++ NL
       ++ js "| x |  |" ++ NL
       ++ js "| y\|z | w |" ++ NL.
Proof.
  split; [| vm_compute; reflexivity].
  intros csvContent lines header. unfold convertCsvToMarkdown. fold lines.
  pose proof (splitOn_nonempty cNL (trim csvContent)) as Hl. fold lines in Hl.
  destruct lines as [|l0 ls] eqn:El; [simpl in Hl; lia|].
  cbn [length Nat.eqb map tl]. subst header. cbn [hd].
  pose proof (parseCSVLine_nonempty l0) as Hh.
  destruct (parseCSVLine l0) as [|h0 hs] eqn:Eh; [simpl in Hh; lia|].
  rewrite fold_left_append.
  rewrite (map_map cleanHeaderCell (fun _ => js "---")).
  rewrite !length_map.
  destruct (dataRowLines (length (h0 :: hs)) ls) as [rows [Er Fr]].
  rewrite Er. exists rows.
  destruct (detectNumericColumns numericValue _) as [|c0 cs].
  - exists []. split; [| split; [exact Fr | now left]].
    repeat rewrite <- app_assoc. rewrite app_nil_r. reflexivity.
  - rewrite fold_left_append. eexists. split; [| split; [exact Fr |]].
    + repeat rewrite <- app_assoc. reflexivity.
    + right. repeat rewrite <- app_assoc.
      apply (startsWith_app (NL ++ js "## Data Summary" ++ NL ++ NL)).
Qed.

End CsvRows.

Lemma StronglySorted_seq (start len : nat) : StronglySorted lt (seq start len).
Proof.
  revert start. induction len as [|len IH]; intros start; cbn [seq]; constructor.
  - apply IH.
  - apply Forall_forall. intros x Hx. apply in_seq in Hx. lia.
Qed.

Lemma StronglySorted_filter {A} (R : A -> A -> Prop) (p : A -> bool) (l : list A) :
  StronglySorted R l -> StronglySorted R (filter p l).
Proof.
  induction 1 as [|x l Hs IH Hx]; cbn [filter]; [constructor|].
  destruct (p x); [| exact IH].
  constructor; [exact IH|].
  rewrite Forall_forall in *. intros y Hy. apply filter_In in Hy as [Hy _]. auto.
Qed.

Section NumericColumnsOrder.

Variable numericValue : jsstring -> float.

(** X6.  The numeric columns are reported in rising order, each once, and
    each is a column of the header; with fewer than two rows none is. *)
Theorem detectNumericColumns_sorted (rows : list (list jsstring)) :
  StronglySorted lt (detectNumericColumns numericValue rows)
  /\ Forall (fun colIndex => colIndex < length (hd [] rows))
            (detectNumericColumns numericValue rows)
  /\ (if length rows <? 2
      then detectNumericColumns numericValue rows = []
      else True).
Proof.
  unfold detectNumericColumns.
  destruct (length rows <? 2); [repeat split; constructor|].
  split; [| split; [| exact I]].
  - apply StronglySorted_filter, StronglySorted_seq.
  - apply Forall_forall. intros x Hx. apply filter_In in Hx as [Hx _].
    apply in_seq in Hx. lia.
Qed.

End NumericColumnsOrder.

(** ** File names *)

(** X7.  The name of a converted document: a last part of the file name
    that is a dot and one or more code units other than a dot and a slash is
    taken off, whatever stands before it. *)
Theorem removeExtension_last_part (base extension : jsstring) :
  negb (isEmpty extension)
  && forallb (fun d => negb (N.eqb d 47 || N.eqb d cDOT)) extension = true ->
  removeExtension (base ++ cDOT :: extension) = base.
Proof.
  intros H. apply andb_prop in H as [Hne Hall].
  induction base as [|c base IH].
  - cbn [app removeExtension]. rewrite N.eqb_refl, Hne, Hall. reflexivity.
  - cbn [app removeExtension]. rewrite IH.
    destruct (N.eqb c cDOT); [| reflexivity].
    replace (forallb _ (base ++ cDOT :: extension)) with false;
      [now rewrite andb_false_r|].
    symmetry. rewrite forallb_app. cbn [forallb].
    rewrite N.eqb_refl, orb_true_r. cbn [negb andb]. apply andb_false_r.
Qed.

Lemma removeExtension_last_part_witness :
  removeExtension (js "report.final" ++ cDOT :: js "docx") = js "report.final".
Proof.
  apply removeExtension_last_part. vm_compute. reflexivity.
Defined.

(** ** List lines of plain text *)

Lemma runLength_head (p : char -> bool) (c : char) (rest : jsstring) :
  1 <= runLength p (c :: rest) -> p c = true.
Proof.
  unfold runLength. cbn [takeWhile]. destruct (p c); [reflexivity|].
  simpl. lia.
Qed.

(** X8.  Whatever the line, the list item made of it starts with a hyphen,
    an asterisk or a digit, the three markers a Markdown list item can start
    with. *)
Theorem convertToMarkdownList_marker (line : jsstring) :
  match convertToMarkdownList line with
  | c :: _ => N.eqb c 45 || N.eqb c 42 || isDigit c = true
  | [] => False
  end.
Proof.
  unfold convertToMarkdownList.
  destruct (re_charSpace (fun c => N.eqb c 45 || N.eqb c 42) line) eqn:E1.
  - destruct line as [|c [|w rest]]; try discriminate E1.
    cbn [re_charSpace] in E1. apply andb_prop in E1 as [E1 _].
    now rewrite E1.
  - destruct (re_charSpace (N.eqb cBULLET) line) eqn:E2.
    + destruct line as [|c [|w rest]]; try discriminate E2.
      cbn [re_charSpace] in E2. apply andb_prop in E2 as [Ec Ew].
      unfold replaceAtStart, m_bulletSymbol.
      rewrite N.eqb_sym in Ec. rewrite Ec.
      unfold runLength. cbn [takeWhile]. rewrite Ew. reflexivity.
    + destruct (isSome (afterRunDotSpace isDigit line)) eqn:E3.
      * unfold afterRunDotSpace in E3.
        destruct (1 <=? runLength isDigit line) eqn:Er; [| discriminate E3].
        apply Nat.leb_le in Er.
        destruct line as [|c rest]; [cbn in Er; lia|].
        rewrite (runLength_head isDigit c rest Er). apply orb_true_r.
      * reflexivity.
Qed.

(** ** Keys and counts of arrays *)

Lemma firstSeen_NoDup (keys : list jsstring) : NoDup (firstSeen keys).
Proof.
  induction keys as [|k keys IH]; cbn [firstSeen]; constructor.
  - rewrite filter_In. intros [_ H]. now rewrite str_eqb_refl in H.
  - now apply NoDup_filter.
Qed.

(** X9.  The columns of the table of an array have no key twice, and they
    are the keys that some element of the array has. *)
Theorem collectKeys_distinct (array : list JSValue) :
  NoDup (collectKeys array)
  /\ forall key,
       In key (collectKeys array)
       <-> exists item, In item array /\ In key (objectKeys item).
Proof.
  rewrite collectKeys_firstSeen. split; [apply firstSeen_NoDup|].
  intros key. rewrite firstSeen_In, in_flat_map. reflexivity.
Qed.










Section ItemCounts.

Variable numberToString : float -> jsstring.
Variable inheritedCell : JSValue -> jsstring -> option jsstring.



End ItemCounts.


(** ** The progress callback and the errors of a batch *)

Section BatchEffects.

Variable toUpperCase : jsstring -> jsstring.
Variable numericValue : jsstring -> float.
Variable numberToString : float -> jsstring.
Variable toFixed2 : float -> jsstring.
Variable inheritedCell : JSValue -> jsstring -> option jsstring.
Variable JSON_parse : jsstring -> JSValue + jsstring.
Variable turndown : jsstring -> Exc jsstring.
Variable readAsText : File -> ReaderEvent.
Variable unzipDocumentXml : File -> Exc (option jsstring).
Variable parseXml : jsstring -> Document.

Local Abbreviation batchLoop :=
  (convertLoop toUpperCase numericValue numberToString toFixed2 inheritedCell JSON_parse
               turndown readAsText unzipDocumentXml parseXml).
Local Abbreviation batch :=
  (convertFilesToMarkdown toUpperCase numericValue numberToString toFixed2
                          inheritedCell
                          JSON_parse turndown readAsText unzipDocumentXml parseXml).
Local Abbreviation readContent :=
  (readFileContent readAsText unzipDocumentXml parseXml).

(** X11.  A progress callback that returns is called once before each file
    and once after the last: with the numbers from 0 to the number of the
    files, in rising order. *)
Theorem progress_calls (files : list File) (callback : nat -> option Thrown) :
  (forall n, callback n = None) ->
  fst (batch files (Some callback)) = seq 0 (S (length files)).
Proof.
  intros H. unfold convertFilesToMarkdown.
  rewrite (convertLoop_returns toUpperCase numericValue numberToString toFixed2
             inheritedCell
             JSON_parse turndown readAsText unzipDocumentXml parseXml
             (Some callback) files).
  - reflexivity.
  - intros cb n E. injection E as <-. apply H.
Qed.

Lemma batchLoop_throws (callback : nat -> option Thrown) (thrown : Thrown)
      (files : list File) :
  forall k i markdownFiles calls,
    k <= length files ->
    (forall j, j < k -> callback (i + j) = None) ->
    callback (i + k) = Some thrown ->
    batchLoop (Some callback) i files markdownFiles calls
    = (calls ++ seq i (S k), inr thrown).
Proof.
  induction files as [|file files IH]; intros k i markdownFiles calls Hk Hret Hthrow.
  - assert (k = 0) by (simpl in Hk; lia). subst k.
    rewrite Nat.add_0_r in Hthrow.
    cbn [convertLoop notify]. now rewrite Hthrow.
  - destruct k as [|k].
    + rewrite Nat.add_0_r in Hthrow.
      cbn [convertLoop notify]. now rewrite Hthrow.
    + cbn [convertLoop notify].
      pose proof (Hret 0 (Nat.lt_0_succ k)) as H0. rewrite Nat.add_0_r in H0.
      rewrite H0.
      rewrite (IH k (S i)).
      * cbn [seq]. now rewrite <- app_assoc.
      * simpl in Hk. lia.
      * intros j Hj. replace (S i + j) with (i + S j) by lia. apply Hret. lia.
      * now replace (S i + k) with (i + S k) by lia.
Qed.

(** X12.  What the progress callback throws is not caught: when its call
    number [k] is the first to throw, the batch throws the same, after these
    [k + 1] calls, and returns no document. *)
Theorem progress_callback_throw (files : list File)
        (callback : nat -> option Thrown) (k : nat) (thrown : Thrown) :
  k <= length files ->
  (forall j, j < k -> callback j = None) ->
  callback k = Some thrown ->
  batch files (Some callback) = (seq 0 (S k), inr thrown).
Proof.
  intros Hk Hret Hthrow. unfold convertFilesToMarkdown.
  now rewrite (batchLoop_throws callback thrown files k 0 [] []).
Qed.

(** X13.  Reading the content of a file throws nothing but an Error: for an
    input taken for DOCX its message starts with the words Failed to read
    DOCX file, and for any other input it is one of two fixed messages. *)
Theorem readFileContent_errors (file : File) (thrown : Thrown) :
  readContent file = inr thrown ->
  if looksLikeDocx (toLowerCase (name file)) (toLowerCase (type file))
  then exists detail,
         thrown = ErrorObject (js "Failed to read DOCX file: " ++ detail)
  else thrown = ErrorObject (js "Failed to read file as text")
       \/ thrown = ErrorObject (js "Error reading file").
Proof.
  unfold readFileContent.
  destruct (looksLikeDocx _ _).
  - unfold readDocxFile, tryCatch, bind, throw, ret.
    destruct (unzipDocumentXml file) as [[[|x xml]|]|error];
      intros H; try discriminate H; injection H as <-; eexists; reflexivity.
  - destruct (readAsText file) as [[result|]|]; intros H;
      try discriminate H; injection H as <-; [left | right]; reflexivity.
Qed.

End BatchEffects.

Lemma progress_calls_witness :
  fst (exampleConvertFiles [notesText; brokenDocx] (Some (fun _ => None)))
  = [0; 1; 2].
Proof.
  apply (progress_calls asciiUpperCase exampleNumericValue exampleNumberToString
           exampleNumberToString nothingInherited exampleJSON_parse
           exampleTurndown exampleReadAsText exampleUnzip exampleParseXml
           [notesText; brokenDocx] (fun _ => None)).
  reflexivity.
Defined.

Lemma progress_callback_throw_witness :
  exampleConvertFiles [notesText; brokenDocx]
    (Some (fun n => if n =? 1 then Some OtherValue else None))
  = ([0; 1], inr OtherValue).
Proof.
  apply (progress_callback_throw asciiUpperCase exampleNumericValue exampleNumberToString
           exampleNumberToString nothingInherited exampleJSON_parse
           exampleTurndown exampleReadAsText exampleUnzip exampleParseXml
           [notesText; brokenDocx]
           (fun n => if n =? 1 then Some OtherValue else None) 1 OtherValue).
  - simpl. lia.
  - intros j Hj. assert (j = 0) by lia. subst j. reflexivity.
  - reflexivity.
Defined.

Lemma readFileContent_errors_witness :
  exists detail,
    ErrorObject (js "Failed to read DOCX file: Corrupted zip")
    = ErrorObject (js "Failed to read DOCX file: " ++ detail).
Proof.
  apply (readFileContent_errors exampleReadAsText exampleUnzip exampleParseXml
           brokenDocx (ErrorObject (js "Failed to read DOCX file: Corrupted zip"))).
  vm_compute. reflexivity.
Defined.

(** ** More on word-processing paragraphs *)

(** X14.  A heading level above 6 comes from nowhere but a style named
    Heading and a number: the paragraph has a style whose value matches that
    pattern, and the level is the number. *)
Theorem getHeadingLevel_above_six (paragraph : Node) (level : Z) :
  getHeadingLevel paragraph = Some level ->
  (6 < level)%Z ->
  exists pPr pStyle val digits,
    querySelector sel_pPr paragraph = Some pPr
    /\ querySelector sel_pStyle pPr = Some pStyle
    /\ orElse (getAttribute (js "w:val") pStyle) (getAttribute (js "val") pStyle)
       = Some val
    /\ headingMatch val = Some digits
    /\ parseInt digits = Some level.
Proof.
  unfold getHeadingLevel. intros H Hlevel.
  destruct (querySelector sel_pPr paragraph) as [pPr|];
    [| injection H as <-; lia].
  exists pPr. unfold styleHeading in H.
  destruct (querySelector sel_pStyle pPr) as [pStyle|].
  - exists pStyle.
    destruct (orElse (getAttribute (js "w:val") pStyle)
                     (getAttribute (js "val") pStyle)) as [[|v val]|] eqn:Ev.
    + destruct (querySelector sel_outlineLvl pPr); [| injection H as <-; lia].
      unfold outlineHeading in H.
      destruct (match orElse _ (Some (js "0")) with
                | Some text => parseInt text
                | None => None
                end); [injection H as <-; lia | discriminate H].
    + exists (v :: val).
      destruct (headingMatch (v :: val)) as [digits|] eqn:Eh.
      * exists digits. repeat split; try reflexivity. exact H.
      * destruct (includes (js "Title") (v :: val));
          [injection H as <-; lia|].
        destruct (includes (js "Subtitle") (v :: val));
          [injection H as <-; lia|].
        destruct (querySelector sel_outlineLvl pPr); [| injection H as <-; lia].
        unfold outlineHeading in H.
        destruct (match orElse _ (Some (js "0")) with
                  | Some text => parseInt text
                  | None => None
                  end); [injection H as <-; lia | discriminate H].
    + destruct (querySelector sel_outlineLvl pPr); [| injection H as <-; lia].
      unfold outlineHeading in H.
      destruct (match orElse _ (Some (js "0")) with
                | Some text => parseInt text
                | None => None
                end); [injection H as <-; lia | discriminate H].
  - destruct (querySelector sel_outlineLvl pPr); [| injection H as <-; lia].
    unfold outlineHeading in H.
    destruct (match orElse _ (Some (js "0")) with
              | Some text => parseInt text
              | None => None
              end); [injection H as <-; lia | discriminate H].
Qed.

Lemma getHeadingLevel_above_six_witness :
  exists pPr pStyle val digits,
    querySelector sel_pPr (styledParagraph (js "Heading7") (js "Deep")) = Some pPr
    /\ querySelector sel_pStyle pPr = Some pStyle
    /\ orElse (getAttribute (js "w:val") pStyle) (getAttribute (js "val") pStyle)
       = Some val
    /\ headingMatch val = Some digits
    /\ parseInt digits = Some 7%Z.
Proof.
  apply (getHeadingLevel_above_six (styledParagraph (js "Heading7") (js "Deep")) 7).
  - vm_compute. reflexivity.
  - lia.
Defined.

Lemma m_spaces_plain (s : jsstring) :
  forall skip prev, plainSpaces (replaceAll_from m_spaces skip prev s).
Proof.
  unfold plainSpaces.
  induction s as [|c rest IH]; intros skip prev.
  - destruct skip; cbn; constructor.
  - destruct skip as [|k]; cbn [replaceAll_from]; [| apply IH].
    unfold m_spaces, runLength. cbn [takeWhile].
    destruct (isSpace c) eqn:Ec.
    + cbn [length Nat.leb]. constructor; [reflexivity | apply IH].
    + cbn [length Nat.leb]. constructor; [congruence | apply IH].
Qed.

Lemma dropWhile_Forall (P : char -> Prop) (p : char -> bool) (s : jsstring) :
  Forall P s -> Forall P (dropWhile p s).
Proof.
  induction 1 as [|c s Hc Hs IH]; cbn [dropWhile]; [constructor|].
  destruct (p c); [exact IH | now constructor].
Qed.

Lemma trim_Forall (P : char -> Prop) (s : jsstring) :
  Forall P s -> Forall P (trim s).
Proof.
  intros H. unfold trim, trimEnd, trimStart.
  apply Forall_rev, dropWhile_Forall, Forall_rev, dropWhile_Forall, H.
Qed.

(** X15.  The text extracted from a paragraph is on one line: the only white
    space in it is the plain space, whatever line breaks and tabs the runs of
    the paragraph hold. *)
Theorem extractParagraphText_one_line (paragraph : Node) :
  Forall (fun c => isSpace c = true -> c = cSP) (extractParagraphText paragraph).
Proof.
  unfold extractParagraphText.
  set (fullText := trim (replaceAll m_spaces _)).
  assert (Hf : plainSpaces fullText).
  { subst fullText. apply trim_Forall. apply m_spaces_plain. }
  destruct (isPositive (getHeadingLevel paragraph) && negb (isEmpty fullText));
    [| exact Hf].
  apply Forall_app. split.
  - unfold repeatChar. apply Forall_forall. intros c Hc.
    apply repeat_spec in Hc. subst c. discriminate.
  - constructor; [reflexivity | exact Hf].
Qed.

(** ** Block quotes *)

Lemma join_cons (sep line : jsstring) (l : jsstring) (ls : list jsstring) :
  join sep (line :: l :: ls) = line ++ sep ++ join sep (l :: ls).
Proof. reflexivity. Qed.

Lemma join_splitOn (sep : char) (s : jsstring) : join [sep] (splitOn sep s) = s.
Proof.
  induction s as [|c rest IH]; [reflexivity|].
  cbn [splitOn]. pose proof (splitOn_nonempty sep rest) as Hne.
  destruct (splitOn sep rest) as [|l ls] eqn:E; [simpl in Hne; lia|].
  destruct (N.eqb c sep) eqn:Ec.
  - apply N.eqb_eq in Ec. subst c. rewrite join_cons, IH. reflexivity.
  - rewrite <- IH. now destruct ls.
Qed.

Lemma splitOn_lines (sep : char) (s : jsstring) :
  Forall (fun line => existsb (N.eqb sep) line = false) (splitOn sep s).
Proof.
  induction s as [|c rest IH]; [repeat constructor|].
  cbn [splitOn]. destruct (N.eqb c sep) eqn:Ec.
  - constructor; [reflexivity | exact IH].
  - destruct (splitOn sep rest) as [|l ls]; [repeat constructor|].
    + cbn [existsb]. now rewrite N.eqb_sym, Ec.
    + inversion IH as [|? ? Hl Hls]; subst. constructor; [| exact Hls].
      cbn [existsb]. now rewrite N.eqb_sym, Ec.
Qed.

Lemma splitOn_app_sep (sep : char) (line rest : jsstring) :
  existsb (N.eqb sep) line = false ->
  splitOn sep (line ++ sep :: rest) = line :: splitOn sep rest.
Proof.
  induction line as [|c line IH]; intros H.
  - cbn [app splitOn]. now rewrite N.eqb_refl.
  - cbn [existsb] in H. apply orb_false_elim in H as [Hc Hl].
    cbn [app splitOn]. rewrite N.eqb_sym, Hc. now rewrite (IH Hl).
Qed.

Lemma splitOn_one_line (sep : char) (line : jsstring) :
  existsb (N.eqb sep) line = false -> splitOn sep line = [line].
Proof.
  induction line as [|c line IH]; intros H; [reflexivity|].
  cbn [existsb] in H. apply orb_false_elim in H as [Hc Hl].
  cbn [splitOn]. rewrite N.eqb_sym, Hc. now rewrite (IH Hl).
Qed.

Lemma splitOn_join (sep : char) (line : jsstring) (lines : list jsstring) :
  Forall (fun l => existsb (N.eqb sep) l = false) (line :: lines) ->
  splitOn sep (join [sep] (line :: lines)) = line :: lines.
Proof.
  revert line. induction lines as [|l lines IH]; intros line H.
  - inversion H; subst. now apply splitOn_one_line.
  - inversion H as [|? ? Hline Hrest]; subst.
    rewrite join_cons. cbn [app]. rewrite splitOn_app_sep by exact Hline.
    now rewrite IH.
Qed.

(** X16.  The replacement of the block quote rule is the quoted lines and
    then one newline.  The quoted lines are as many as the lines of the
    content, every one of them starts with the marker, also an empty one, and
    taking the markers off gives the content back. *)
Theorem blockquoteReplacement_round_trip (content : jsstring) :
  exists quoted,
    blockquoteReplacement content = quoted ++ NL
    /\ Forall (fun line => startsWith (js "> ") line = true) (splitOn cNL quoted)
    /\ length (splitOn cNL quoted) = length (splitOn cNL content)
    /\ stripQuoteMarkers quoted = content.
Proof.
  exists (join NL (map (fun line => js "> " ++ line) (splitOn cNL content))).
  split; [reflexivity|].
  unfold stripQuoteMarkers. change NL with [cNL].
  pose proof (splitOn_nonempty cNL content) as Hne.
  pose proof (splitOn_lines cNL content) as Hlines.
  pose proof (join_splitOn cNL content) as Hjoin.
  destruct (splitOn cNL content) as [|l ls]; [simpl in Hne; lia|].
  assert (Hsplit : splitOn cNL (join [cNL] (map (fun line => js "> " ++ line) (l :: ls)))
                   = map (fun line => js "> " ++ line) (l :: ls)).
  { change (map (fun line => js "> " ++ line) (l :: ls))
      with ((js "> " ++ l) :: map (fun line => js "> " ++ line) ls).
    apply splitOn_join.
    change ((js "> " ++ l) :: map (fun line => js "> " ++ line) ls)
      with (map (fun line => js "> " ++ line) (l :: ls)).
    apply Forall_map. revert Hlines. apply Forall_impl.
    intros line H. rewrite existsb_app.
    apply orb_false_intro; [reflexivity | exact H]. }
  rewrite Hsplit. split; [| split].
  - apply Forall_map. apply Forall_forall. intros line _. reflexivity.
  - apply length_map.
  - rewrite map_map. cbn [skipn js app]. rewrite map_id. exact Hjoin.
Qed.

(** ** The list of selected files *)

Lemma filter_none {A} (p : A -> bool) (l : list A) :
  (forall x, In x l -> p x = false) -> filter p l = [].
Proof.
  induction l as [|x l IH]; intros H; [reflexivity|].
  cbn [filter]. rewrite (H x (or_introl eq_refl)). apply IH.
  intros y Hy. apply H. now right.
Qed.

Section SelectionProperties.

Variable lastModified : File -> Z.

Local Abbreviation key := (fileKey lastModified).
Local Abbreviation add := (addFilesToList lastModified).

Lemma addFilesToList_keys (newFiles prevFiles : list File) (file : File) :
  In file newFiles ->
  existsb (str_eqb (key file)) (map key (add newFiles prevFiles)) = true.
Proof.
  intros Hin. unfold addFilesToList. rewrite map_app, existsb_app.
  destruct (existsb (str_eqb (key file)) (map key prevFiles)) eqn:E;
    [reflexivity|].
  cbn [orb]. apply existsb_exists. exists (key file).
  split; [| apply str_eqb_refl].
  apply in_map, filter_In. split; [exact Hin | now rewrite E].
Qed.

(** X17.  Adding files to the selection keeps the files selected before, in
    their order, at the front, and adding the same files once more changes
    nothing. *)
Theorem addFilesToList_again (newFiles prevFiles : list File) :
  firstn (length prevFiles) (add newFiles prevFiles) = prevFiles
  /\ add newFiles (add newFiles prevFiles) = add newFiles prevFiles.
Proof.
  split.
  - unfold addFilesToList. rewrite firstn_app, Nat.sub_diag, firstn_all.
    cbn [firstn]. apply app_nil_r.
  - unfold addFilesToList at 1. rewrite filter_none; [apply app_nil_r|].
    intros file Hin. now rewrite (addFilesToList_keys newFiles prevFiles file Hin).
Qed.

End SelectionProperties.

Lemma removeFile_from (files : list File) :
  forall start index,
    map snd (filter (fun p => negb (fst p =? start + index))
                    (combine (seq start (length files)) files))
    = firstn index files ++ skipn (S index) files.
Proof.
  induction files as [|file files IH]; intros start index.
  - now destruct index.
  - cbn [length seq combine filter fst].
    destruct index as [|index].
    + rewrite Nat.add_0_r, Nat.eqb_refl. cbn [negb firstn skipn app].
      clear IH.
      assert (H : forall l from, start < from ->
                     map snd (filter (fun p : nat * File => negb (fst p =? start))
                                     (combine (seq from (length l)) l)) = l).
      { induction l as [|x l IHl]; intros from Hlt; [reflexivity|].
        cbn [length seq combine filter fst].
        replace (from =? start) with false by (symmetry; apply Nat.eqb_neq; lia).
        cbn [negb map snd]. f_equal. apply IHl. lia. }
      apply H. lia.
    + replace (start =? start + S index) with false
        by (symmetry; apply Nat.eqb_neq; lia).
      cbn [negb map snd firstn skipn app]. f_equal.
      replace (start + S index) with (S start + index) by lia.
      apply IH.
Qed.

(** X18.  Removing the file at an index takes that one file out of the
    selection and leaves the others in their order; an index beyond the last
    file removes nothing. *)
Theorem removeFile_at (index : nat) (files : list File) :
  removeFile index files = firstn index files ++ skipn (S index) files
  /\ length (removeFile index files)
     = if index <? length files then length files - 1 else length files.
Proof.
  assert (E : removeFile index files = firstn index files ++ skipn (S index) files).
  { unfold removeFile. apply (removeFile_from files 0 index). }
  split; [exact E|].
  rewrite E, length_app, length_firstn, length_skipn.
  destruct (index <? length files) eqn:L.
  - apply Nat.ltb_lt in L. lia.
  - apply Nat.ltb_ge in L. lia.
Qed.

(** ** White space in converted HTML *)

(** What a replacement gives is made of what it was given and of the
    replacement texts. *)
Lemma replaceAll_from_Forall (P : char -> Prop) (m : matcher) :
  (forall prev s n r, m prev s = Some (n, r) -> Forall P r) ->
  forall s skip prev, Forall P s -> Forall P (replaceAll_from m skip prev s).
Proof.
  intros Hm. induction s as [|c rest IH]; intros skip prev Hs.
  - destruct skip; cbn [replaceAll_from]; [| constructor].
    destruct (m prev []) as [[n r]|] eqn:E; [| constructor].
    exact (Hm _ _ _ _ E).
  - inversion Hs as [|? ? Hc Hrest]; subst.
    destruct skip as [|k]; cbn [replaceAll_from]; [| now apply IH].
    destruct (m prev (c :: rest)) as [[[|k] r]|] eqn:E.
    + apply Forall_app. split; [exact (Hm _ _ _ _ E)|].
      constructor; [exact Hc | now apply IH].
    + apply Forall_app. split; [exact (Hm _ _ _ _ E) | now apply IH].
    + constructor; [exact Hc | now apply IH].
Qed.

Lemma m_blanks_no_tab (s : jsstring) :
  forall skip prev,
    Forall (fun c => N.eqb c cTAB = false) (replaceAll_from m_blanks skip prev s).
Proof.
  induction s as [|c rest IH]; intros skip prev.
  - destruct skip; cbn; constructor.
  - destruct skip as [|k]; cbn [replaceAll_from]; [| apply IH].
    unfold m_blanks, runLength. cbn [takeWhile].
    destruct (isBlankChar c) eqn:Ec.
    + cbn [length Nat.leb]. constructor; [reflexivity | apply IH].
    + cbn [length Nat.leb]. constructor; [| apply IH].
      unfold isBlankChar in Ec. apply orb_false_elim in Ec as [_ Ec]. exact Ec.
Qed.

Lemma runLength_stop (p : char -> bool) (s : jsstring) :
  match skipn (runLength p s) s with
  | [] => True
  | d :: _ => p d = false
  end.
Proof.
  unfold runLength. induction s as [|c rest IH]; [exact I|].
  cbn [takeWhile]. destruct (p c) eqn:E; cbn [length skipn]; [exact IH | exact E].
Qed.

Lemma runLength_le (p : char -> bool) (s : jsstring) : runLength p s <= length s.
Proof.
  unfold runLength. induction s as [|c rest IH]; [apply le_n|].
  cbn [takeWhile]. destruct (p c); cbn [length]; lia.
Qed.

Lemma m_newlineSpaces_text (prev : option char) (s : jsstring) :
  startsWithText s = true ->
  startsWithText (replaceAll_from m_newlineSpaces 0 prev s) = true.
Proof.
  destruct s as [|d rest]; intros H; [reflexivity|].
  cbn [startsWithText] in H. cbn [replaceAll_from m_newlineSpaces].
  replace (N.eqb d cNL) with false; [cbn [andb startsWithText]; exact H|].
  symmetry. apply N.eqb_neq. intros ->. vm_compute in H. discriminate H.
Qed.

Lemma noSpaceAfterNewline_cons (a : char) (s : jsstring) :
  (N.eqb a cNL = true -> startsWithText s = true) ->
  noSpaceAfterNewline s = true ->
  noSpaceAfterNewline (a :: s) = true.
Proof.
  intros Ha Hs. cbn [noSpaceAfterNewline]. rewrite Hs, andb_true_r.
  destruct s as [|b s']; [reflexivity|].
  destruct (N.eqb a cNL); [| reflexivity].
  cbn [andb]. exact (Ha eq_refl).
Qed.

Lemma m_newlineSpaces_clean (s : jsstring) :
  forall skip prev,
    noSpaceAfterNewline (replaceAll_from m_newlineSpaces skip prev s) = true.
Proof.
  induction s as [|c rest IH]; intros skip prev.
  - destruct skip; reflexivity.
  - destruct skip as [|k]; cbn [replaceAll_from]; [| apply IH].
    cbn [m_newlineSpaces].
    pose proof (runLength_stop isSpace rest) as Hstop.
    pose proof (runLength_le isSpace rest) as Hle.
    destruct (N.eqb c cNL) eqn:Ec; cbn [andb].
    + destruct (1 <=? runLength isSpace rest) eqn:Er.
      * cbn [NL app]. apply noSpaceAfterNewline_cons; [| apply IH].
        intros _.
        destruct (replaceAll_from_skip m_newlineSpaces (runLength isSpace rest)
                                       rest (Some c) Hle) as [prev' ->].
        apply m_newlineSpaces_text.
        destruct (skipn (runLength isSpace rest) rest); [reflexivity|].
        cbn [startsWithText]. now rewrite Hstop.
      * apply noSpaceAfterNewline_cons; [| apply IH].
        intros _. apply m_newlineSpaces_text.
        apply Nat.leb_gt in Er.
        assert (E0 : runLength isSpace rest = 0) by lia.
        rewrite E0 in Hstop. cbn [skipn] in Hstop.
        destruct rest; [reflexivity|]. cbn [startsWithText]. now rewrite Hstop.
    + apply noSpaceAfterNewline_cons; [| apply IH].
      intros H. congruence.
Qed.

(** X19.  Outside code, the rule for paragraphs, divisions and spans leaves
    no tab in the content and no white space after a newline; inside code
    it leaves the content as it is. *)
Theorem preserveSpacesReplacement_normalized (content : jsstring) :
  existsb (fun c => N.eqb c cTAB) (preserveSpacesReplacement false content) = false
  /\ noSpaceAfterNewline (preserveSpacesReplacement false content) = true
  /\ preserveSpacesReplacement true content = content.
Proof.
  unfold preserveSpacesReplacement, replaceAll.
  split; [| split; [apply m_newlineSpaces_clean | reflexivity]].
  assert (H : Forall (fun c => N.eqb c cTAB = false)
                     (replaceAll_from m_newlineSpaces 0 None
                                      (replaceAll_from m_blanks 0 None content))).
  { apply replaceAll_from_Forall; [| apply m_blanks_no_tab].
    intros prev s n r E. unfold m_newlineSpaces in E.
    destruct s as [|c rest]; [discriminate E|].
    destruct (N.eqb c cNL && (1 <=? runLength isSpace rest)); [| discriminate E].
    injection E as _ <-. repeat constructor. }
  induction H as [|c l Hc Hl IH]; [reflexivity|].
  cbn [existsb]. now rewrite Hc, IH.
Qed.
